(** * Pet mood detection pipeline (mood_detection.py)

    A shallow embedding of the script's four functions and of its driver
    (Step 6), together with the properties the design document states
    about them.

    The script is glue code around external libraries: the YOLO detector,
    Pillow, the CLIP processor and model, torch/numpy and OpenCV.  Each
    library is an interface (a type class) whose operations return either
    a value or a Python exception; the functions of the script are written
    once, over any implementation of these interfaces.  Calls to the
    libraries and lines written by [print] are recorded in a trace, so
    that "performs no classification call" is a statement about the trace.

    Floating-point values (box coordinates, class indices, logits,
    probabilities) are modelled by the rational number they denote: a
    finite float is a rational; infinities and NaN are outside the model.
    Operations that are exact on floats
    ([int], comparisons, decimal formatting) are defined on [Q];
    operations that round ([softmax], multiplication) are left to the
    library interface. *)

From Stdlib Require Import ZArith QArith Qround Qabs Lqa.
From stdpp Require Import base option list strings gmap pretty.

Open Scope string_scope.

(** ** Python exceptions and results *)

Inductive exn : Type :=
  | IndexError
  | KeyError
  | ValueError
  | TypeError
  | LibraryError (library : string).

Inductive result (A : Type) : Type :=
  | Ok (a : A)
  | Raise (e : exn).

Arguments Ok {A} a.
Arguments Raise {A} e.

(** ** Traces *)

Definition box_t : Type := Z * Z * Z * Z.
Definition point : Type := Z * Z.
Definition color : Type := Z * Z * Z.

(** One entry per call into an external library and per printed line, in
    program order. *)
Inductive event : Type :=
  | CallDetector (image_path : string)
  | CallImageOpen (image_path : string)
  | CallCrop (box : box_t)
  | CallClipProcessor (text : list string)
  | CallClipModel
  | CallImread (image_path : string)
  | CallRectangle (pt1 pt2 : point) (c : color) (thickness : Z)
  | CallGetTextSize (label : string)
  | CallPutText (label : string) (org : point)
  | CallImshow (title : string)
  | CallWaitKey (delay : Z)
  | CallDestroyAllWindows
  | Print (line : string).

Definition is_classification_call (ev : event) : bool :=
  match ev with
  | CallClipProcessor _ | CallClipModel => true
  | _ => false
  end.

Definition is_rendering_call (ev : event) : bool :=
  match ev with
  | CallImread _ | CallRectangle _ _ _ _ | CallGetTextSize _
  | CallPutText _ _ | CallImshow _ | CallWaitKey _
  | CallDestroyAllWindows => true
  | _ => false
  end.

(** The lines written to standard output, in order. *)
Fixpoint stdout (tr : list event) : list string :=
  match tr with
  | [] => []
  | Print line :: tr' => line :: stdout tr'
  | _ :: tr' => stdout tr'
  end.

(** ** The monad of the script: a trace and a result

    An exception stops the computation; what was traced before it stays. *)

Definition M (A : Type) : Type := list event * result A.

Definition ret {A} (a : A) : M A := ([], Ok a).

Definition bind {A B} (m : M A) (k : A -> M B) : M B :=
  match m with
  | (tr, Ok a) => let '(tr', r) := k a in ((tr ++ tr')%list, r)
  | (tr, Raise e) => (tr, Raise e)
  end.

Definition raise {A} (e : exn) : M A := ([], Raise e).

Definition lift {A} (r : result A) : M A := ([], r).

(** A call into a library: traced, then its result. *)
Definition call {A} (ev : event) (r : result A) : M A := ([ev], r).

Definition print (line : string) : M unit := ([Print line], Ok tt).

Declare Scope py_scope.
Delimit Scope py_scope with py.
Notation "x <- c ;; k" := (bind c (fun x => k))
  (at level 100, c at next level, right associativity) : py_scope.
Notation "c ;;; k" := (bind c (fun _ => k))
  (at level 100, right associativity) : py_scope.
Open Scope py_scope.

Definition trace_of {A} (m : M A) : list event := fst m.
Definition result_of {A} (m : M A) : result A := snd m.

(** ** Python primitives used by the script *)

(** [int(x)] on a finite float: truncation toward zero. *)
Definition int (x : Q) : Z := Z.quot (Qnum x) (Zpos (Qden x)).

(** [xs[i]] on a sequence, for a non-negative index. *)
Definition getitem {A} (xs : list A) (i : nat) : result A :=
  match xs !! i with
  | Some x => Ok x
  | None => Raise IndexError
  end.

(** [d[k]] on a dict. *)
Definition dict_getitem `{Countable K} {V} (d : gmap K V) (k : K) : result V :=
  match d !! k with
  | Some v => Ok v
  | None => Raise KeyError
  end.

(** Truthiness of a value that is [None] or a [str]. *)
Definition truthy (v : option string) : bool :=
  match v with
  | None => false
  | Some EmptyString => false
  | Some (String _ _) => true
  end.

Definition Qltb (x y : Q) : bool := negb (Qle_bool y x).

(** [numpy.ndarray.argmax] on a one-dimensional array: the index of the
    first occurrence of the maximum; [ValueError] on an empty array. *)
Fixpoint argmax_from (best_idx : nat) (best : Q) (i : nat) (xs : list Q) : nat :=
  match xs with
  | [] => best_idx
  | x :: xs' =>
      if Qltb best x then argmax_from i x (S i) xs'
      else argmax_from best_idx best (S i) xs'
  end.

Definition argmax (xs : list Q) : result nat :=
  match xs with
  | [] => Raise ValueError
  | x :: xs' => Ok (argmax_from 0 x 1 xs')
  end.

(** Rounding to the nearest integer, ties to the even one. *)
Definition round_half_even (x : Q) : Z :=
  let f := Qfloor x in
  let r := (x - inject_Z f)%Q in
  if Qltb r (1 # 2) then f
  else if Qltb (1 # 2) r then (f + 1)%Z
  else if Z.even f then f else (f + 1)%Z.

(** The format specification [.1f] applied to a finite float. *)
Definition format_1f (x : Q) : string :=
  let n := round_half_even (Qabs x * 10)%Q in
  (if Qltb x 0 then "-" else EmptyString)
  +:+ pretty (n / 10)%Z +:+ "." +:+ pretty (n mod 10)%Z.

(** ** What the detector returns *)

Record Boxes : Type := {
  xyxy : list (Q * Q * Q * Q);
  cls : list Q;
  conf : list Q
}.

Record Results : Type := {
  boxes : Boxes;
  names : gmap Z string
}.

Record ClipOutput : Type := {
  logits_per_image : list (list Q)
}.

(** ** The external libraries *)

Class Detector : Type := {
  yolo_model : string -> result (list Results)
}.

Class Pillow (Image : Type) : Type := {
  Image_open : string -> result Image;
  Image_crop : Image -> box_t -> result Image
}.

Class Clip (Image Inputs : Type) : Type := {
  clip_processor : list string -> Image -> result Inputs;
  clip_model : Inputs -> result ClipOutput
}.

(** [softmax] over one row of a tensor and the product of two floats: both
    round, so they are operations of the library; [softmax] keeps the
    shape of its argument. *)
Class FloatOps : Type := {
  softmax : list Q -> list Q;
  softmax_length : forall row, length (softmax row) = length row;
  fmul : Q -> Q -> Q
}.

(** [cv2.imread] returns [None] for a file it cannot read; the drawing
    functions change the frame in place, written here as a new frame.
    The script never tests what [cv2.imread] returned, so the drawing
    functions and [cv2.imshow] can be handed [None] in place of an image:
    what they do then is given by the fields whose name ends in [_None]. *)
Class OpenCV (Frame : Type) : Type := {
  cv2_imread : string -> option Frame;
  cv2_rectangle : Frame -> point -> point -> color -> Z -> result Frame;
  cv2_getTextSize : string -> Z -> Q -> Z -> (Z * Z) * Z;
  cv2_putText : Frame -> string -> point -> Z -> Q -> color -> Z -> result Frame;
  cv2_imshow : string -> Frame -> result unit;
  cv2_waitKey : Z -> result Z;
  cv2_destroyAllWindows : result unit;
  cv2_rectangle_None : point -> point -> color -> Z -> result unit;
  cv2_putText_None : string -> point -> Z -> Q -> color -> Z -> result unit;
  cv2_imshow_None : string -> result unit
}.

Definition FONT_HERSHEY_SIMPLEX : Z := 0.

(** ** The script *)

Definition pet_labels : list string := ["dog"; "cat"].

Definition moods : list string := ["happy"; "tired"; "playful"; "anxious"].

(** Step 4.  The dict literal, its entries inserted in source order;
    [rules.get(key, default)]. *)
Definition rules : gmap (string * string) string :=
  <[("cat", "anxious") := "Make sure the environment is calm 🐱😟"]>
  (<[("cat", "playful") := "Play with a laser pointer or string toy 🎯"]>
  (<[("cat", "tired") := "Let your cat nap in a quiet spot 💤"]>
  (<[("cat", "happy") := "Give your cat some toys or treats 🐱✨"]>
  (<[("dog", "anxious") := "Check if something is stressing your dog 😟"]>
  (<[("dog", "playful") := "Engage with toys to burn energy 🐕"]>
  (<[("dog", "tired") := "Let your dog rest and provide fresh water 💧"]>
  (<[("dog", "happy") := "Take your dog for a walk or play fetch 🎾"]>
   ∅))))))).

Definition default_recommendation : string := "Keep monitoring your pet.".

Definition get_recommendation (pet_type mood : string) : string :=
  default default_recommendation (rules !! (pet_type, mood)).

Definition image_path : string := "./ML-AI/dog_sample.jpg".

Definition no_pet_message : string := "No pet detected in the image.".

Section Script.

Local Open Scope Z_scope.

Context {Image Inputs Frame : Type}.
Context `{!Detector, !Pillow Image, !Clip Image Inputs, !FloatOps,
          !OpenCV Frame}.

Definition detection_t : Type :=
  option string * option Image * option box_t.

(** Step 2, the loop over [zip(r.boxes.xyxy, r.boxes.cls)]. *)
Fixpoint scan_detections (path : string) (r : Results)
    (dets : list ((Q * Q * Q * Q) * Q)) : M detection_t :=
  match dets with
  | [] => ret (None, None, None)
  | (box, c) :: dets' =>
      label <- lift (dict_getitem (names r) (int c)) ;;
      if bool_decide (label ∈ pet_labels) then
        let '(bx1, by1, bx2, by2) := box in
        let x1 := int bx1 in
        let y1 := int by1 in
        let x2 := int bx2 in
        let y2 := int by2 in
        img <- call (CallImageOpen path) (Image_open path) ;;
        cropped <- call (CallCrop (x1, y1, x2, y2))
                        (Image_crop img (x1, y1, x2, y2)) ;;
        ret (Some label, Some cropped, Some (x1, y1, x2, y2))
      else scan_detections path r dets'
  end.

Definition detect_and_crop (path : string) : M detection_t :=
  results <- call (CallDetector path) (yolo_model path) ;;
  r <- lift (getitem results 0%nat) ;;
  scan_detections path r (zip (xyxy (boxes r)) (cls (boxes r))).

(** Step 3. *)
Definition candidate_phrases : list string :=
  map (fun m => "a " +:+ m +:+ " pet") moods.

Definition classify_mood (image : Image) : M (string * Q) :=
  inputs <- call (CallClipProcessor candidate_phrases)
                 (clip_processor candidate_phrases image) ;;
  outputs <- call CallClipModel (clip_model inputs) ;;
  probs <- lift (getitem (map softmax (logits_per_image outputs)) 0%nat) ;;
  best_idx <- lift (argmax probs) ;;
  mood <- lift (getitem moods best_idx) ;;
  p <- lift (getitem probs best_idx) ;;
  ret (mood, p).

(** The calls of Step 5 and Step 6 on the variable [img], which holds an
    image or [None]; after a drawing call on an image the variable holds
    the image as changed, after one on [None] it still holds [None]. *)
Definition rectangle (img : option Frame) (pt1 pt2 : point) (c : color)
    (thickness : Z) : M (option Frame) :=
  match img with
  | Some f =>
      f' <- call (CallRectangle pt1 pt2 c thickness)
              (cv2_rectangle f pt1 pt2 c thickness) ;;
      ret (Some f')
  | None =>
      call (CallRectangle pt1 pt2 c thickness)
           (cv2_rectangle_None pt1 pt2 c thickness) ;;;
      ret None
  end.

Definition putText (img : option Frame) (text : string) (org : point)
    (font : Z) (font_scale : Q) (c : color) (thickness : Z)
    : M (option Frame) :=
  match img with
  | Some f =>
      f' <- call (CallPutText text org)
              (cv2_putText f text org font font_scale c thickness) ;;
      ret (Some f')
  | None =>
      call (CallPutText text org)
           (cv2_putText_None text org font font_scale c thickness) ;;;
      ret None
  end.

Definition imshow (title : string) (img : option Frame) : M unit :=
  call (CallImshow title)
       (match img with
        | Some f => cv2_imshow title f
        | None => cv2_imshow_None title
        end).

(** Step 5.  The result of [cv2.imread] is used as it comes. *)
Definition draw_detection_with_mood (path : string) (box_coords : box_t)
    (pet_type mood : string) (confidence : Q) : M (option Frame) :=
  img <- call (CallImread path) (Ok (cv2_imread path)) ;;
  let '(x1, y1, x2, y2) := box_coords in
  img <- rectangle img (x1, y1) (x2, y2) (0, 255, 0) 2 ;;
  let label :=
    pet_type +:+ " - " +:+ mood +:+ " ("
    +:+ format_1f (fmul confidence 100) +:+ "%)" in
  let font := FONT_HERSHEY_SIMPLEX in
  let font_scale := (6 # 10)%Q in
  let thickness := 2 in
  size <- call (CallGetTextSize label)
            (Ok (cv2_getTextSize label font font_scale thickness)) ;;
  let '(text_width, text_height, baseline) := size in
  img <- rectangle img (x1, y1 - text_height - 10)
           (x1 + text_width + 10, y1) (0, 255, 0) (-1) ;;
  img <- putText img label (x1 + 5, y1 - 5) font font_scale (0, 0, 0)
           thickness ;;
  ret img.

(** Step 6, the branch taken when a pet was found. *)
Definition report_pet (pet_type : string) (cropped : Image)
    (box_coords : box_t) : M unit :=
  classified <- classify_mood cropped ;;
  let '(mood, confidence) := classified in
  let rec := get_recommendation pet_type mood in
  print ("Pet detected: " +:+ pet_type) ;;;
  print ("Mood: " +:+ mood +:+ " ("
         +:+ format_1f (fmul confidence 100) +:+ "% confidence)") ;;;
  print ("Recommendation: " +:+ rec) ;;;
  annotated_img <-
    draw_detection_with_mood image_path box_coords pet_type mood
      confidence ;;
  imshow "Pet Mood Detection" annotated_img ;;;
  call (CallWaitKey 0) (cv2_waitKey 0) ;;;
  call CallDestroyAllWindows cv2_destroyAllWindows.

(** Step 6, the pipeline.  The statements of the module that run before
    it (the print of the working directory and the loading of the models)
    are not part of it.  The test is on [pet_type] alone.  A truthy [pet_type] next
    to a [None] crop or box would make the calls below fail on [None];
    [detect_and_crop] never returns such a triple. *)
Definition main : M unit :=
  detection <- detect_and_crop image_path ;;
  let '(pet_type, cropped, box_coords) := detection in
  if truthy pet_type then
    match pet_type, cropped, box_coords with
    | Some pet, Some crop_img, Some box => report_pet pet crop_img box
    | _, _, _ => raise TypeError
    end
  else print no_pet_message.

End Script.

(** ** Vocabulary of the detection properties *)

(** A detection, as the loop sees it: a box and a class index. *)
Definition detections (r : Results) : list ((Q * Q * Q * Q) * Q) :=
  zip (xyxy (boxes r)) (cls (boxes r)).

(** The detector's label of a detection. *)
Definition label_of (r : Results) (d : (Q * Q * Q * Q) * Q) : option string :=
  names r !! int (snd d).

(** The detection has a label, and it is neither "dog" nor "cat". *)
Definition not_pet (r : Results) (d : (Q * Q * Q * Q) * Q) : Prop :=
  exists label, label_of r d = Some label /\ label ∉ pet_labels.

(** The box that [map(int, box)] gives. *)
Definition int_box (box : Q * Q * Q * Q) : box_t :=
  let '(bx1, by1, bx2, by2) := box in (int bx1, int by1, int bx2, int by2).

(** The integer box [b] has the coordinates the detector reported. *)
Definition box_equals_reported (b : box_t) (box : Q * Q * Q * Q) : Prop :=
  let '(x1, y1, x2, y2) := b in
  let '(bx1, by1, bx2, by2) := box in
  (inject_Z x1 == bx1 /\ inject_Z y1 == by1
   /\ inject_Z x2 == bx2 /\ inject_Z y2 == by2)%Q.

(** The float [x] is the number [y] within the tolerance [tol]. *)
Definition close_to (tol x y : Q) : Prop := (Qabs (x - y) <= tol)%Q.

(** The integer coordinate [z] is the float [x] cut toward zero: less than
    one away from it and no larger in absolute value. *)
Definition cut_toward_zero (z : Z) (x : Q) : Prop :=
  (Qabs (x - inject_Z z) < 1 /\ Qabs (inject_Z z) <= Qabs x)%Q.

Definition box_cut_toward_zero (b : box_t) (box : Q * Q * Q * Q) : Prop :=
  let '(x1, y1, x2, y2) := b in
  let '(bx1, by1, bx2, by2) := box in
  cut_toward_zero x1 bx1 /\ cut_toward_zero y1 by1
  /\ cut_toward_zero x2 bx2 /\ cut_toward_zero y2 by2.

(** The rectangle of corners [inner1], [inner2] lies in the rectangle of
    corners [outer1], [outer2], at distance [margin] from each side. *)
Definition inset_by (margin : Z) (inner1 inner2 outer1 outer2 : point) : Prop :=
  (fst inner1 - fst outer1 = margin /\ fst outer2 - fst inner2 = margin
   /\ snd inner1 - snd outer1 = margin /\ snd outer2 - snd inner2 = margin)%Z.

(** ** Test doubles

    Concrete implementations of the library interfaces, on which the
    script runs by computation. *)

Module Demo.

(** An image is the path it was read from and the crops applied to it. *)
Definition image : Type := string * list box_t.

(** The inputs of the model: the phrases and the image. *)
Definition inputs : Type := list string * image.

(** A frame is the list of shapes drawn on it. *)
Definition frame : Type := list string.

Definition detector (results : list Results) : Detector :=
  {| yolo_model := fun _ => Ok results |}.

Definition pillow : Pillow image :=
  {| Image_open := fun path => Ok (path, []);
     Image_crop := fun img b => Ok (fst img, (snd img ++ [b])%list) |}.

Definition clip (logits : list (list Q)) : Clip image inputs :=
  {| clip_processor := fun text img => Ok (text, img);
     clip_model := fun _ => Ok {| logits_per_image := logits |} |}.

Definition total (row : list Q) : Q := foldr Qplus 0%Q row.

(** A stand-in for the float kernel: scores divided by their sum. *)
Definition normalise (row : list Q) : list Q :=
  map (fun x => Qred (x / total row)) row.

Definition float_ops : FloatOps :=
  {| softmax := normalise;
     softmax_length := fun row =>
     length_map (fun x => Qred (x / total row)) row;
     fmul := fun x y => Qred (x * y) |}.

Definition opencv : OpenCV frame :=
  {| cv2_imread := fun path => Some [path];
     cv2_rectangle := fun f _ _ _ _ => Ok (f ++ ["rectangle"])%list;
     cv2_getTextSize := fun label _ _ _ =>
       ((Z.of_nat (String.length label) * 11, 13), 5)%Z;
     cv2_putText := fun f label _ _ _ _ _ => Ok (f ++ [label])%list;
     cv2_imshow := fun _ _ => Ok tt;
     cv2_waitKey := fun _ => Ok (-1)%Z;
     cv2_destroyAllWindows := Ok tt;
     cv2_rectangle_None := fun _ _ _ _ => Ok tt;
     cv2_putText_None := fun _ _ _ _ _ _ => Ok tt;
     cv2_imshow_None := fun _ => Raise (LibraryError "cv2") |}.

(** The names of three of the detector's classes. *)
Definition coco_names : gmap Z string :=
  <[16%Z := "dog"]> (<[15%Z := "cat"]> (<[2%Z := "car"]> ∅)).

Definition one_car : Results :=
  {| boxes := {| xyxy := [(5 # 1, 6 # 1, 50 # 1, 60 # 1)%Q];
                 cls := [2 # 1];
                 conf := [8 # 10] |};
     names := coco_names |}.

Definition no_boxes : Results :=
  {| boxes := {| xyxy := []; cls := []; conf := [] |};
     names := coco_names |}.

(** A car, then a cat of confidence 0.3, then a dog of confidence 0.9. *)
Definition car_cat_dog : Results :=
  {| boxes := {| xyxy := [(5 # 1, 6 # 1, 50 # 1, 60 # 1)%Q;
                          (1 # 1, 2 # 1, 30 # 1, 40 # 1)%Q;
                          (10 # 1, 10 # 1, 100 # 1, 100 # 1)%Q];
                 cls := [2 # 1; 15 # 1; 16 # 1];
                 conf := [8 # 10; 3 # 10; 9 # 10] |};
     names := coco_names |}.

(** The scenario of the design document: one dog at (10,10,100,100). *)
Definition one_dog : Results :=
  {| boxes := {| xyxy := [(10 # 1, 10 # 1, 100 # 1, 100 # 1)%Q];
                 cls := [16 # 1];
                 conf := [9 # 10] |};
     names := coco_names |}.

(** One dog whose box has fractional coordinates. *)
Definition one_dog_fractional : Results :=
  {| boxes := {| xyxy := [(21 # 2, 43 # 4, 1009 # 10, 2001 # 20)%Q];
                 cls := [16 # 1];
                 conf := [9 # 10] |};
     names := coco_names |}.

(** Scores for the four phrases; the second list has a tie at its
    maximum. *)
Definition scores : list Q := [1 # 1; 6 # 1; 2 # 1; 1 # 1]%Q.

Definition tied_scores : list Q := [1 # 1; 3 # 1; 3 # 1; 1 # 1]%Q.

Definition dog_crop : image := (image_path, [(10, 10, 100, 100)%Z]).

Definition cat_crop : image := ("cat.jpg", [(1, 2, 30, 40)%Z]).

(** A detection of a class the detector has no name for, then a dog. *)
Definition unnamed_then_dog : Results :=
  {| boxes := {| xyxy := [(5 # 1, 6 # 1, 50 # 1, 60 # 1)%Q;
                          (10 # 1, 10 # 1, 100 # 1, 100 # 1)%Q];
                 cls := [99 # 1; 16 # 1];
                 conf := [8 # 10; 9 # 10] |};
     names := coco_names |}.

(** The dog of [one_dog], with another confidence. *)
Definition one_dog_unsure : Results :=
  {| boxes := {| xyxy := [(10 # 1, 10 # 1, 100 # 1, 100 # 1)%Q];
                 cls := [16 # 1];
                 conf := [1 # 10] |};
     names := coco_names |}.

(** A dog whose box has negative and fractional coordinates. *)
Definition dog_off_frame : Results :=
  {| boxes := {| xyxy := [(- (7 # 2), 43 # 4, 1009 # 10, 2001 # 20)%Q];
                 cls := [16 # 1];
                 conf := [9 # 10] |};
     names := coco_names |}.

Definition pillow_unreadable : Pillow image :=
  {| Image_open := fun _ => Raise (LibraryError "PIL");
     Image_crop := fun img b => Ok (fst img, (snd img ++ [b])%list) |}.

Definition pillow_bad_crop : Pillow image :=
  {| Image_open := fun path => Ok (path, []);
     Image_crop := fun _ _ => Raise ValueError |}.

Definition clip_no_processor : Clip image inputs :=
  {| clip_processor := fun _ _ => Raise ValueError;
     clip_model := fun _ => Ok {| logits_per_image := [scores] |} |}.

Definition clip_no_model : Clip image inputs :=
  {| clip_processor := fun text img => Ok (text, img);
     clip_model := fun _ => Raise (LibraryError "torch") |}.

(** OpenCV when it cannot read the file: [imread] gives [None], drawing on
    [None] does nothing and [imshow] refuses it. *)
Definition opencv_unreadable : OpenCV frame :=
  {| cv2_imread := fun _ => None;
     cv2_rectangle := fun f _ _ _ _ => Ok (f ++ ["rectangle"])%list;
     cv2_getTextSize := fun label _ _ _ =>
       ((Z.of_nat (String.length label) * 11, 13), 5)%Z;
     cv2_putText := fun f label _ _ _ _ _ => Ok (f ++ [label])%list;
     cv2_imshow := fun _ _ => Ok tt;
     cv2_waitKey := fun _ => Ok (-1)%Z;
     cv2_destroyAllWindows := Ok tt;
     cv2_rectangle_None := fun _ _ _ _ => Ok tt;
     cv2_putText_None := fun _ _ _ _ _ _ => Ok tt;
     cv2_imshow_None := fun _ => Raise (LibraryError "cv2") |}.

(** The scenario with the values that single-precision floats can hold:
    the floats nearest to 0.1, 0.6, 0.2 and 0.9. *)
Definition float32_0_1 : Q := 13421773 # 134217728.

Definition float32_0_6 : Q := 5033165 # 8388608.

Definition float32_0_2 : Q := 13421773 # 67108864.

Definition float32_0_9 : Q := 7549747 # 8388608.

Definition one_dog_float32 : Results :=
  {| boxes := {| xyxy := [(10 # 1, 10 # 1, 100 # 1, 100 # 1)%Q];
                 cls := [16 # 1];
                 conf := [float32_0_9] |};
     names := coco_names |}.

Definition float32_distribution : list Q :=
  [float32_0_1; float32_0_6; float32_0_2; float32_0_1].

(** A float kernel that answers [float32_distribution] on a row of four
    logits. *)
Definition float32_ops : FloatOps :=
  {| softmax := fun row =>
       take (length row) (float32_distribution ++ row)%list;
     softmax_length := fun row =>
       eq_trans (length_take (float32_distribution ++ row)%list (length row))
         (Nat.min_l _ _
            (eq_ind_r (fun n => (length row <= n)%nat)
               (Nat.le_add_l (length row) (length float32_distribution))
               (length_app float32_distribution row)));
     fmul := fun x y => Qred (x * y) |}.

(** Five scores, the largest in fifth place. *)
Definition five_scores : list Q := [1 # 1; 1 # 1; 1 # 1; 1 # 1; 5 # 1]%Q.

End Demo.

Example demo_run_no_pet :
  @main _ _ _ (Demo.detector [Demo.one_car]) Demo.pillow (Demo.clip [])
        Demo.float_ops Demo.opencv
  = ([CallDetector image_path; Print "No pet detected in the image."], Ok tt).
Proof. vm_compute. reflexivity. Qed.

Example demo_run_dog :
  stdout (trace_of
    (@main _ _ _ (Demo.detector [Demo.one_dog]) Demo.pillow
           (Demo.clip [Demo.scores]) Demo.float_ops Demo.opencv))
  = ["Pet detected: dog";
     "Mood: tired (60.0% confidence)";
     "Recommendation: Let your dog rest and provide fresh water 💧"].
Proof. vm_compute. reflexivity. Qed.

Example int_examples :
  int (21 # 2) = 10%Z /\ int (- (21 # 2)) = (-10)%Z /\ int (16 # 1) = 16%Z
  /\ int (1009 # 10) = 100%Z.
Proof. vm_compute. repeat split. Qed.

Example format_1f_examples :
  format_1f (1234 # 100) = "12.3" /\ format_1f (1 # 4) = "0.2"
  /\ format_1f (3 # 4) = "0.8" /\ format_1f (1 # 8) = "0.1"
  /\ format_1f (- (126 # 100)) = "-1.3" /\ format_1f (9996 # 100) = "100.0".
Proof. vm_compute. repeat split. Qed.

(** * Properties *)

(** ** The monad *)

Arguments bind : simpl never.
Arguments lift : simpl never.
Arguments call : simpl never.
Arguments print : simpl never.

Lemma bind_Ok {A B} (tr : list event) (a : A) (k : A -> M B) :
  bind (tr, Ok a) k = ((tr ++ trace_of (k a))%list, result_of (k a)).
Proof. unfold bind, trace_of, result_of. destruct (k a); reflexivity. Qed.

Lemma bind_Raise {A B} (tr : list event) (e : exn) (k : A -> M B) :
  bind (tr, Raise e) k = (tr, Raise e).
Proof. reflexivity. Qed.

Lemma bind_lift_Ok {A B} (r : result A) (a : A) (k : A -> M B) :
  r = Ok a -> bind (lift r) k = k a.
Proof.
  intros ->. unfold lift. rewrite bind_Ok. simpl.
  unfold trace_of, result_of. destruct (k a); reflexivity.
Qed.

Lemma bind_call_Ok {A B} (ev : event) (r : result A) (a : A) (k : A -> M B) :
  r = Ok a ->
  bind (call ev r) k = (ev :: trace_of (k a), result_of (k a)).
Proof. intros ->. unfold call. rewrite bind_Ok. reflexivity. Qed.

Lemma stdout_app (tr1 tr2 : list event) :
  stdout (tr1 ++ tr2)%list = (stdout tr1 ++ stdout tr2)%list.
Proof.
  induction tr1 as [|ev tr1 IH]; simpl; [reflexivity|].
  destruct ev; simpl; rewrite ?IH; reflexivity.
Qed.

(** ** [int] *)

Lemma int_inject_Z (z : Z) : int (inject_Z z) = z.
Proof. unfold int. simpl. apply Z.quot_1_r. Qed.

(** [int] depends on the value of the float only, and is the identity on
    whole numbers. *)
Lemma int_whole (x : Q) (z : Z) : (x == inject_Z z)%Q -> int x = z.
Proof.
  unfold Qeq, int. simpl. intros E.
  rewrite Z.mul_1_r in E. rewrite E.
  apply Z.quot_mul. discriminate.
Qed.

(** ** The recommendation table *)

Lemma rules_lookup_Some (pet_type mood s : string) :
  rules !! (pet_type, mood) = Some s ->
  pet_type ∈ pet_labels /\ mood ∈ moods.
Proof.
  unfold rules, pet_labels, moods. intros E.
  repeat (apply lookup_insert_Some in E as [[E _]|[_ E]];
          [injection E as <- <-; split; set_solver|]).
  rewrite lookup_empty in E. discriminate.
Qed.

Lemma rules_lookup_domain (pet_type mood : string) :
  pet_type ∈ pet_labels -> mood ∈ moods ->
  exists s, rules !! (pet_type, mood) = Some s /\ s <> EmptyString.
Proof.
  unfold pet_labels, moods. intros Hp Hm.
  repeat (apply elem_of_cons in Hp as [->|Hp]);
    [| |by apply elem_of_nil in Hp];
    (repeat (apply elem_of_cons in Hm as [->|Hm]);
     [| | | |by apply elem_of_nil in Hm]);
    (eexists; split; [vm_compute; reflexivity|discriminate]).
Qed.

(** ** Detection and crop selection *)

Lemma int_box_whole (b : box_t) (box : Q * Q * Q * Q) :
  box_equals_reported b box -> int_box box = b.
Proof.
  destruct b as [[[x1 y1] x2] y2], box as [[[bx1 by1] bx2] by2].
  simpl. intros (E1 & E2 & E3 & E4).
  rewrite (int_whole bx1 x1), (int_whole by1 y1), (int_whole bx2 x2),
    (int_whole by2 y2) by (symmetry; assumption).
  reflexivity.
Qed.

Section Detection.

Context {Image : Type} `{!Detector, !Pillow Image}.

Lemma scan_detections_skip path r pre dets :
  Forall (not_pet r) pre ->
  scan_detections path r (pre ++ dets)%list = scan_detections path r dets.
Proof.
  induction 1 as [|[box c] pre (label & Hl & Hn) _ IH]; [reflexivity|].
  simpl. unfold label_of in Hl. simpl in Hl.
  unfold dict_getitem. rewrite Hl.
  rewrite bind_lift_Ok with (a := label) by reflexivity.
  rewrite bool_decide_eq_false_2 by assumption.
  exact IH.
Qed.

Lemma scan_detections_none path r dets :
  Forall (not_pet r) dets ->
  scan_detections path r dets = ([], Ok (None, None, None)).
Proof.
  intros Hn. rewrite <- (app_nil_r dets).
  rewrite scan_detections_skip by assumption. reflexivity.
Qed.

Lemma scan_detections_hit path r box c dets label img cropped :
  names r !! int c = Some label -> label ∈ pet_labels ->
  Image_open path = Ok img ->
  Image_crop img (int_box box) = Ok cropped ->
  scan_detections path r ((box, c) :: dets)
  = ([CallImageOpen path; CallCrop (int_box box)],
     Ok (Some label, Some cropped, Some (int_box box))).
Proof.
  intros Hl Hp Ho Hc. simpl. unfold dict_getitem. rewrite Hl.
  rewrite bind_lift_Ok with (a := label) by reflexivity.
  rewrite bool_decide_eq_true_2 by assumption.
  destruct box as [[[bx1 by1] bx2] by2]. simpl in Hc.
  rewrite bind_call_Ok with (a := img) by assumption.
  rewrite bind_call_Ok with (a := cropped) by assumption.
  reflexivity.
Qed.

Lemma detect_and_crop_scan path r rest :
  yolo_model path = Ok (r :: rest) ->
  detect_and_crop path
  = (CallDetector path :: trace_of (scan_detections path r (detections r)),
     result_of (scan_detections path r (detections r))).
Proof.
  intros Hy. unfold detect_and_crop.
  rewrite bind_call_Ok with (a := r :: rest) by assumption.
  rewrite bind_lift_Ok with (a := r) by reflexivity.
  reflexivity.
Qed.

(** The first pet in detector order is the one returned. *)
Lemma detect_and_crop_first path r rest pre box c post label img cropped :
  yolo_model path = Ok (r :: rest) ->
  detections r = (pre ++ (box, c) :: post)%list ->
  Forall (not_pet r) pre ->
  names r !! int c = Some label -> label ∈ pet_labels ->
  Image_open path = Ok img ->
  Image_crop img (int_box box) = Ok cropped ->
  detect_and_crop path
  = ([CallDetector path; CallImageOpen path; CallCrop (int_box box)],
     Ok (Some label, Some cropped, Some (int_box box))).
Proof.
  intros Hy Hd Hpre Hl Hp Ho Hc.
  rewrite (detect_and_crop_scan path r rest Hy), Hd.
  rewrite scan_detections_skip by assumption.
  rewrite (scan_detections_hit path r box c post label img cropped)
    by assumption.
  reflexivity.
Qed.

Lemma detect_and_crop_not_found path r rest :
  yolo_model path = Ok (r :: rest) ->
  Forall (not_pet r) (detections r) ->
  detect_and_crop path = ([CallDetector path], Ok (None, None, None)).
Proof.
  intros Hy Hn. rewrite (detect_and_crop_scan path r rest Hy).
  rewrite scan_detections_none by assumption. reflexivity.
Qed.

(** What the loop can return. *)
Lemma scan_detections_shape path r dets label cropped box :
  result_of (scan_detections path r dets) = Ok (label, cropped, box) ->
  (label = None /\ cropped = None /\ box = None)
  \/ (exists s img b,
        label = Some s /\ s ∈ pet_labels
        /\ cropped = Some img /\ box = Some b).
Proof.
  induction dets as [|[bx c] dets IH]; simpl.
  - intros [= <- <- <-]. left. auto.
  - unfold dict_getitem.
    destruct (names r !! int c) as [l|]; [|discriminate].
    rewrite bind_lift_Ok with (a := l) by reflexivity.
    case_bool_decide as Hl; [|exact IH].
    destruct bx as [[[bx1 by1] bx2] by2].
    unfold call.
    destruct (Image_open path) as [img|]; [|discriminate].
    rewrite bind_Ok.
    destruct (Image_crop img _) as [cr|]; [|discriminate].
    rewrite bind_Ok. simpl.
    intros [= <- <- <-]. right. eauto 10.
Qed.

End Detection.

Section DetectionClaims.

Context {Image : Type} `{!Detector, !Pillow Image}.

(** C1.  [detect_and_crop] returns the first detection, in the order of
    the detector, whose label is "dog" or "cat": when the detections are
    [pre ++ (box, c) :: post] and no detection of [pre] is a pet, the label,
    crop and box of [(box, c)] come back.  Nothing is asked of [post] nor
    of the confidences [conf (boxes r)], which the function never reads: a
    later match of higher confidence changes nothing. *)
Theorem detect_and_crop_first_match
    path r rest pre box c post label img cropped :
  yolo_model path = Ok (r :: rest) ->
  detections r = (pre ++ (box, c) :: post)%list ->
  Forall (not_pet r) pre ->
  label_of r (box, c) = Some label -> label ∈ pet_labels ->
  Image_open path = Ok img ->
  Image_crop img (int_box box) = Ok cropped ->
  result_of (detect_and_crop path)
  = Ok (Some label, Some cropped, Some (int_box box)).
Proof.
  intros Hy Hd Hpre Hl Hp Ho Hc.
  rewrite (detect_and_crop_first path r rest pre box c post label img cropped)
    by assumption.
  reflexivity.
Qed.

(** C3.  When the detector returns no box, or no box with a label among
    "dog" and "cat", [detect_and_crop] returns [(None, None, None)] and
    raises nothing. *)
Theorem detect_and_crop_sentinel path r rest :
  yolo_model path = Ok (r :: rest) ->
  xyxy (boxes r) = [] \/ Forall (not_pet r) (detections r) ->
  result_of (detect_and_crop path) = Ok (None, None, None).
Proof.
  intros Hy Hn.
  assert (Forall (not_pet r) (detections r)) as Hall.
  { destruct Hn as [He|Hn]; [|exact Hn].
    unfold detections. rewrite He. constructor. }
  rewrite (detect_and_crop_not_found path r rest) by assumption.
  reflexivity.
Qed.

(** C4, amended.  With exactly one dog or cat among the detections, the
    label returned is the detector's label of that detection and the box
    returned is the detector's box with each coordinate truncated toward
    zero by [int]; it equals the reported coordinates whenever these are
    whole numbers. *)
Theorem detect_and_crop_single_pet
    path r rest pre box c post label img cropped :
  yolo_model path = Ok (r :: rest) ->
  detections r = (pre ++ (box, c) :: post)%list ->
  Forall (not_pet r) pre -> Forall (not_pet r) post ->
  label_of r (box, c) = Some label -> label ∈ pet_labels ->
  Image_open path = Ok img ->
  Image_crop img (int_box box) = Ok cropped ->
  result_of (detect_and_crop path)
  = Ok (Some label, Some cropped, Some (int_box box))
  /\ (forall b, box_equals_reported b box -> int_box box = b).
Proof.
  intros Hy Hd Hpre _ Hl Hp Ho Hc. split.
  - rewrite (detect_and_crop_first path r rest pre box c post label img
               cropped) by assumption.
    reflexivity.
  - intros b. apply int_box_whole.
Qed.

(** C10.  A triple returned by [detect_and_crop] is never partly [None]:
    either its three components are [None], or the label is "dog" or
    "cat", hence a non-empty string, and the crop and the box are present.
    The truthiness of the label is false in the first case and true in the
    second, so the test of the main script tells them apart. *)
Theorem detect_and_crop_result_shape path label cropped box :
  result_of (detect_and_crop path) = Ok (label, cropped, box) ->
  (label = None /\ cropped = None /\ box = None /\ truthy label = false)
  \/ (exists s img b,
        label = Some s /\ (s = "dog" \/ s = "cat") /\ s <> EmptyString
        /\ cropped = Some img /\ box = Some b /\ truthy label = true).
Proof.
  unfold detect_and_crop, call.
  destruct (yolo_model path) as [results|]; [|discriminate].
  rewrite bind_Ok.
  destruct results as [|r rest]; [discriminate|].
  rewrite bind_lift_Ok with (a := r) by reflexivity.
  simpl. intros Hs.
  apply scan_detections_shape in Hs
    as [(-> & -> & ->)|(s & img & b & -> & Hs & -> & ->)].
  - left. auto.
  - right. exists s, img, b.
    assert (s = "dog" \/ s = "cat") as Hdc.
    { unfold pet_labels in Hs.
      apply elem_of_cons in Hs as [->|Hs]; [auto|].
      apply elem_of_cons in Hs as [->|Hs]; [auto|].
      by apply elem_of_nil in Hs. }
    destruct Hdc as [->| ->]; repeat split; auto; discriminate.
Qed.

End DetectionClaims.

(** Closed goals over the test doubles are settled by evaluation. *)
Ltac by_evaluation :=
  solve [ vm_compute; reflexivity
        | apply (bool_decide_unpack _); vm_compute; exact I ].

Ltac all_not_pets :=
  repeat first
    [ apply Forall_nil_2
    | apply Forall_cons_2;
      [eexists; split; [vm_compute; reflexivity|by_evaluation]|] ].

(** A cat of confidence 0.3 detected before a dog of confidence 0.9: the
    cat is returned. *)
Lemma detect_and_crop_first_match_witness :
  detections Demo.car_cat_dog
  = ([(5 # 1, 6 # 1, 50 # 1, 60 # 1, 2 # 1)]
     ++ (1 # 1, 2 # 1, 30 # 1, 40 # 1, 15 # 1)
     :: [(10 # 1, 10 # 1, 100 # 1, 100 # 1, 16 # 1)])%list
  /\ conf (boxes Demo.car_cat_dog) = [8 # 10; 3 # 10; 9 # 10]
  /\ result_of (@detect_and_crop _ (Demo.detector [Demo.car_cat_dog])
                  Demo.pillow "pets.jpg")
     = Ok (Some "cat", Some ("pets.jpg", [(1, 2, 30, 40)%Z]),
           Some (1, 2, 30, 40)%Z).
Proof.
  split; [reflexivity|]. split; [reflexivity|].
  apply (@detect_and_crop_first_match _ (Demo.detector [Demo.car_cat_dog])
           Demo.pillow "pets.jpg" Demo.car_cat_dog []
           [(5 # 1, 6 # 1, 50 # 1, 60 # 1, 2 # 1)]
           (1 # 1, 2 # 1, 30 # 1, 40 # 1) (15 # 1)
           [(10 # 1, 10 # 1, 100 # 1, 100 # 1, 16 # 1)]
           "cat" ("pets.jpg", [])).
  - reflexivity.
  - reflexivity.
  - all_not_pets.
  - by_evaluation.
  - by_evaluation.
  - reflexivity.
  - reflexivity.
Defined.

Lemma detect_and_crop_sentinel_witness :
  result_of (@detect_and_crop _ (Demo.detector [Demo.no_boxes])
               Demo.pillow "empty.jpg") = Ok (None, None, None)
  /\ result_of (@detect_and_crop _ (Demo.detector [Demo.one_car])
                  Demo.pillow "street.jpg") = Ok (None, None, None).
Proof.
  split.
  - apply (@detect_and_crop_sentinel _ (Demo.detector [Demo.no_boxes])
             Demo.pillow "empty.jpg" Demo.no_boxes []).
    + reflexivity.
    + left. reflexivity.
  - apply (@detect_and_crop_sentinel _ (Demo.detector [Demo.one_car])
             Demo.pillow "street.jpg" Demo.one_car []).
    + reflexivity.
    + right. unfold detections. simpl. all_not_pets.
Defined.

(** C4 as stated fails: the detector reports the box
    (10.5, 10.75, 100.9, 100.05) for the only dog of the image, and the
    box returned is (10, 10, 100, 100). *)
Lemma detect_and_crop_box_not_reported :
  detections Demo.one_dog_fractional
  = [(21 # 2, 43 # 4, 1009 # 10, 2001 # 20, 16 # 1)]
  /\ label_of Demo.one_dog_fractional
       (21 # 2, 43 # 4, 1009 # 10, 2001 # 20, 16 # 1) = Some "dog"
  /\ result_of (@detect_and_crop _ (Demo.detector [Demo.one_dog_fractional])
                  Demo.pillow "dog.jpg")
     = Ok (Some "dog", Some ("dog.jpg", [(10, 10, 100, 100)%Z]),
           Some (10, 10, 100, 100)%Z)
  /\ ~ box_equals_reported (10, 10, 100, 100)%Z
         (21 # 2, 43 # 4, 1009 # 10, 2001 # 20).
Proof.
  split; [reflexivity|]. split; [by_evaluation|]. split; [by_evaluation|].
  intros (E & _). vm_compute in E. discriminate E.
Qed.

Lemma detect_and_crop_single_pet_witness :
  result_of (@detect_and_crop _ (Demo.detector [Demo.one_dog_fractional])
               Demo.pillow "dog.jpg")
  = Ok (Some "dog", Some ("dog.jpg", [(10, 10, 100, 100)%Z]),
        Some (10, 10, 100, 100)%Z)
  /\ (forall b,
        box_equals_reported b (21 # 2, 43 # 4, 1009 # 10, 2001 # 20) ->
        int_box (21 # 2, 43 # 4, 1009 # 10, 2001 # 20) = b).
Proof.
  apply (@detect_and_crop_single_pet _
           (Demo.detector [Demo.one_dog_fractional]) Demo.pillow "dog.jpg"
           Demo.one_dog_fractional [] []
           (21 # 2, 43 # 4, 1009 # 10, 2001 # 20) (16 # 1) [] "dog"
           ("dog.jpg", [])).
  - reflexivity.
  - reflexivity.
  - all_not_pets.
  - all_not_pets.
  - by_evaluation.
  - by_evaluation.
  - reflexivity.
  - reflexivity.
Defined.

Lemma detect_and_crop_result_shape_witness :
  (exists s img b,
     Some "cat" = Some s /\ (s = "dog" \/ s = "cat") /\ s <> EmptyString
     /\ Some ("pets.jpg", [(1, 2, 30, 40)%Z]) = Some img
     /\ Some (1, 2, 30, 40)%Z = Some b
     /\ truthy (Some "cat") = true).
Proof.
  destruct (@detect_and_crop_result_shape _
              (Demo.detector [Demo.car_cat_dog]) Demo.pillow "pets.jpg"
              (Some "cat") (Some ("pets.jpg", [(1, 2, 30, 40)%Z]))
              (Some (1, 2, 30, 40)%Z)) as [(E & _)|Hfound].
  - vm_compute. reflexivity.
  - discriminate E.
  - exact Hfound.
Defined.

(** ** [argmax] *)

Lemma Qltb_true (x y : Q) : Qltb x y = true -> (x < y)%Q.
Proof.
  unfold Qltb. intros E. apply negb_true_iff in E.
  apply Qnot_le_lt. intros Hle. apply Qle_bool_iff in Hle. congruence.
Qed.

Lemma Qltb_false (x y : Q) : Qltb x y = false -> (y <= x)%Q.
Proof.
  unfold Qltb. intros E. apply negb_false_iff in E.
  apply Qle_bool_iff. exact E.
Qed.

(** The invariant of the scan: [best] is the value at [best_idx], no
    element seen so far exceeds it and every element before [best_idx] is
    strictly below it. *)
Lemma argmax_from_spec (xs pre : list Q) (best_idx : nat) (best : Q) :
  pre !! best_idx = Some best ->
  (forall q, q ∈ pre -> (q <= best)%Q) ->
  (forall j q, (j < best_idx)%nat -> pre !! j = Some q -> (q < best)%Q) ->
  exists m,
    (pre ++ xs)%list !! argmax_from best_idx best (length pre) xs = Some m
    /\ (forall q, q ∈ (pre ++ xs)%list -> (q <= m)%Q)
    /\ (forall j q, (j < argmax_from best_idx best (length pre) xs)%nat ->
          (pre ++ xs)%list !! j = Some q -> (q < m)%Q).
Proof.
  revert pre best_idx best.
  induction xs as [|x xs IH]; intros pre best_idx best Hb Hmax Hfirst.
  - simpl. rewrite app_nil_r. eauto.
  - simpl. pose proof (lookup_lt_Some _ _ _ Hb) as Hlt.
    replace (pre ++ x :: xs)%list with ((pre ++ [x]) ++ xs)%list
      by (rewrite <- app_assoc; reflexivity).
    replace (S (length pre)) with (length (pre ++ [x])%list)
      by (rewrite length_app; simpl; lia).
    destruct (Qltb best x) eqn:E.
    + apply Qltb_true in E. apply IH.
      * rewrite lookup_app_r by lia. rewrite Nat.sub_diag. reflexivity.
      * intros q Hq. apply elem_of_app in Hq as [Hq|Hq].
        -- apply Qle_trans with best; [auto|]. apply Qlt_le_weak, E.
        -- apply list_elem_of_singleton in Hq as ->. apply Qle_refl.
      * intros j q Hj Hq. rewrite lookup_app_l in Hq by assumption.
        apply Qle_lt_trans with best; [|exact E].
        apply Hmax. apply list_elem_of_lookup. eauto.
    + apply Qltb_false in E. apply IH.
      * rewrite lookup_app_l by assumption. exact Hb.
      * intros q Hq. apply elem_of_app in Hq as [Hq|Hq]; [auto|].
        apply list_elem_of_singleton in Hq as ->. exact E.
      * intros j q Hj Hq. rewrite lookup_app_l in Hq by lia. eauto.
Qed.

Lemma argmax_spec (xs : list Q) :
  xs <> [] ->
  exists i m,
    argmax xs = Ok i /\ xs !! i = Some m
    /\ (forall q, q ∈ xs -> (q <= m)%Q)
    /\ (forall j q, (j < i)%nat -> xs !! j = Some q -> (q < m)%Q).
Proof.
  destruct xs as [|x xs]; [congruence|]. intros _.
  destruct (argmax_from_spec xs [x] 0 x) as (m & Hm & Hmax & Hfirst).
  - reflexivity.
  - intros q Hq. apply list_elem_of_singleton in Hq as ->. apply Qle_refl.
  - intros j q Hj. lia.
  - exists (argmax_from 0 x 1 xs), m. simpl in *. auto.
Qed.

(** ** Mood classification *)

Section Classification.

Context {Image Inputs : Type} `{!Clip Image Inputs, !FloatOps}.

(** When the processor and the model succeed and the model gives one logit
    per phrase, [classify_mood] makes these two calls and returns the mood
    and the probability at the first index [i] of the maximum. *)
Lemma classify_mood_run image inputs out row rows :
  clip_processor candidate_phrases image = Ok inputs ->
  clip_model inputs = Ok out ->
  logits_per_image out = row :: rows ->
  length row = length moods ->
  exists i mood p,
    classify_mood image
    = ([CallClipProcessor candidate_phrases; CallClipModel], Ok (mood, p))
    /\ moods !! i = Some mood
    /\ softmax row !! i = Some p
    /\ (forall q, q ∈ softmax row -> (q <= p)%Q)
    /\ (forall j q, (j < i)%nat -> softmax row !! j = Some q -> (q < p)%Q).
Proof.
  intros Hp Hm Hl Hlen.
  destruct (argmax_spec (softmax row)) as (i & p & Ha & Hi & Hmax & Hfirst).
  { intros E. pose proof (softmax_length row) as Hs.
    rewrite E, Hlen in Hs. discriminate Hs. }
  assert (i < length moods)%nat as Hlt.
  { rewrite <- Hlen, <- softmax_length. eapply lookup_lt_Some, Hi. }
  destruct (lookup_lt_is_Some_2 moods i Hlt) as [mood Hmood].
  exists i, mood, p. split; [|auto].
  unfold classify_mood.
  rewrite bind_call_Ok with (a := inputs) by assumption.
  rewrite bind_call_Ok with (a := out) by assumption.
  rewrite bind_lift_Ok with (a := softmax row)
    by (rewrite Hl; reflexivity).
  rewrite bind_lift_Ok with (a := i) by assumption.
  rewrite bind_lift_Ok with (a := mood)
    by (unfold getitem; rewrite Hmood; reflexivity).
  rewrite bind_lift_Ok with (a := p)
    by (unfold getitem; rewrite Hi; reflexivity).
  reflexivity.
Qed.

End Classification.

(** ** The main script *)

Lemma trace_of_bind {A B} (m : M A) (k : A -> M B) :
  trace_of (bind m k)
  = (trace_of m ++ match result_of m with
                   | Ok a => trace_of (k a)
                   | Raise _ => []
                   end)%list.
Proof.
  destruct m as [tr [a|e]].
  - rewrite bind_Ok. reflexivity.
  - rewrite bind_Raise. simpl. rewrite app_nil_r. reflexivity.
Qed.

Lemma stdout_bind {A B} (m : M A) (k : A -> M B) :
  stdout (trace_of (bind m k))
  = (stdout (trace_of m) ++ match result_of m with
                            | Ok a => stdout (trace_of (k a))
                            | Raise _ => []
                            end)%list.
Proof.
  rewrite trace_of_bind, stdout_app. destruct (result_of m); reflexivity.
Qed.

(** A library call prints nothing through [print]. *)
Lemma stdout_call {A} (ev : event) (r : result A) :
  (if is_classification_call ev then True
   else if is_rendering_call ev then True else False) ->
  stdout (trace_of (call ev r)) = [].
Proof. destruct ev; simpl; intros []; reflexivity. Qed.

Lemma result_of_call {A} (ev : event) (r : result A) :
  result_of (call ev r) = r.
Proof. reflexivity. Qed.

Lemma trace_of_call {A} (ev : event) (r : result A) :
  trace_of (call ev r) = [ev].
Proof. reflexivity. Qed.

Lemma trace_of_bind_Ok {A B} (m : M A) (k : A -> M B) (a : A) :
  result_of m = Ok a ->
  trace_of (bind m k) = (trace_of m ++ trace_of (k a))%list.
Proof. intros E. rewrite trace_of_bind, E. reflexivity. Qed.

Lemma bind_result_Ok {A B} (m : M A) (k : A -> M B) (b : B) :
  result_of (bind m k) = Ok b ->
  exists a, result_of m = Ok a /\ result_of (k a) = Ok b.
Proof.
  destruct m as [tr [a|e]].
  - rewrite bind_Ok. intros Hr. exists a. auto.
  - rewrite bind_Raise. discriminate.
Qed.

Section MainScript.

Context {Image Inputs Frame : Type}.
Context `{!Detector, !Pillow Image, !Clip Image Inputs, !FloatOps,
          !OpenCV Frame}.

Lemma trace_of_rectangle (img : option Frame) pt1 pt2 c thickness :
  trace_of (rectangle img pt1 pt2 c thickness)
  = [CallRectangle pt1 pt2 c thickness].
Proof.
  destruct img as [f|]; unfold rectangle, call.
  - destruct (cv2_rectangle f pt1 pt2 c thickness); reflexivity.
  - destruct (cv2_rectangle_None pt1 pt2 c thickness); reflexivity.
Qed.

Lemma trace_of_putText (img : option Frame) text org font font_scale c
    thickness :
  trace_of (putText img text org font font_scale c thickness)
  = [CallPutText text org].
Proof.
  destruct img as [f|]; unfold putText, call.
  - destruct (cv2_putText f text org font font_scale c thickness);
      reflexivity.
  - destruct (cv2_putText_None text org font font_scale c thickness);
      reflexivity.
Qed.

Lemma draw_detection_with_mood_silent
    path box_coords pet_type mood confidence :
  stdout (trace_of (draw_detection_with_mood path box_coords pet_type mood
                      confidence)) = [].
Proof.
  unfold draw_detection_with_mood.
  destruct box_coords as [[[x1 y1] x2] y2].
  rewrite stdout_bind, stdout_call, result_of_call by exact I.
  cbn [app].
  rewrite stdout_bind, trace_of_rectangle. cbn [stdout app].
  destruct (result_of (rectangle _ _ _ _ _)) as [img1|]; [|reflexivity].
  rewrite stdout_bind, stdout_call, result_of_call by exact I.
  cbn [app].
  destruct (cv2_getTextSize _ _ _ _) as [[tw th] bl].
  rewrite stdout_bind, trace_of_rectangle. cbn [stdout app].
  destruct (result_of (rectangle _ _ _ _ _)) as [img2|]; [|reflexivity].
  rewrite stdout_bind, trace_of_putText. cbn [stdout app].
  destruct (result_of (putText _ _ _ _ _ _ _)); reflexivity.
Qed.

(** What the found branch prints after a successful classification,
    whatever the rendering calls then do. *)
Lemma report_pet_stdout pet_type cropped box_coords tr mood confidence :
  classify_mood cropped = (tr, Ok (mood, confidence)) ->
  stdout tr = [] ->
  stdout (trace_of (report_pet pet_type cropped box_coords))
  = ["Pet detected: " +:+ pet_type;
     "Mood: " +:+ mood +:+ " (" +:+ format_1f (fmul confidence 100)
     +:+ "% confidence)";
     "Recommendation: " +:+ get_recommendation pet_type mood].
Proof.
  intros Hc Htr. unfold report_pet.
  rewrite stdout_bind, Hc. simpl. rewrite Htr. simpl.
  rewrite stdout_bind. simpl. f_equal.
  rewrite stdout_bind. simpl. f_equal.
  rewrite stdout_bind. simpl. f_equal.
  rewrite stdout_bind, draw_detection_with_mood_silent. simpl.
  destruct (result_of (draw_detection_with_mood _ _ _ _ _)) as [img|];
    [|reflexivity].
  unfold imshow.
  rewrite stdout_bind, stdout_call by exact I. simpl.
  match goal with
  | |- context [match ?r with Ok _ => _ | Raise _ => _ end] => destruct r
  end; simpl; [|reflexivity].
  rewrite stdout_bind, stdout_call by exact I. simpl.
  destruct (cv2_waitKey 0); reflexivity.
Qed.

Lemma main_found tr pet_type cropped box_coords :
  detect_and_crop image_path
  = (tr, Ok (Some pet_type, Some cropped, Some box_coords)) ->
  pet_type ∈ pet_labels ->
  main = ((tr ++ trace_of (report_pet pet_type cropped box_coords))%list,
          result_of (report_pet pet_type cropped box_coords)).
Proof.
  intros Hd Hp. unfold main. rewrite Hd, bind_Ok.
  assert (truthy (Some pet_type) = true) as ->; [|reflexivity].
  unfold pet_labels in Hp.
  apply elem_of_cons in Hp as [->|Hp]; [reflexivity|].
  apply elem_of_cons in Hp as [->|Hp]; [reflexivity|].
  by apply elem_of_nil in Hp.
Qed.

Lemma main_not_found r rest :
  yolo_model image_path = Ok (r :: rest) ->
  Forall (not_pet r) (detections r) ->
  main = ([CallDetector image_path; Print no_pet_message], Ok tt).
Proof.
  intros Hy Hn. unfold main.
  rewrite (detect_and_crop_not_found image_path r rest) by assumption.
  rewrite bind_Ok. reflexivity.
Qed.

End MainScript.

Section PipelineClaims.

Context {Image Inputs Frame : Type}.
Context `{!Detector, !Pillow Image, !Clip Image Inputs, !FloatOps,
          !OpenCV Frame}.

(** C2.  When the detections of the image are empty or all carry a label
    other than "dog" and "cat", the main script ends normally, the one line
    it prints is "No pet detected in the image.", and its trace holds no
    call to the mood classifier and no rendering call. *)
Theorem main_no_pet r rest :
  yolo_model image_path = Ok (r :: rest) ->
  xyxy (boxes r) = [] \/ Forall (not_pet r) (detections r) ->
  result_of main = Ok tt
  /\ stdout (trace_of main) = ["No pet detected in the image."]
  /\ Forall (fun ev => is_classification_call ev = false
                       /\ is_rendering_call ev = false) (trace_of main).
Proof.
  intros Hy Hn.
  assert (Forall (not_pet r) (detections r)) as Hall.
  { destruct Hn as [He|Hn]; [|exact Hn].
    unfold detections. rewrite He. constructor. }
  rewrite (main_not_found r rest Hy Hall). simpl.
  split; [reflexivity|]. split; [reflexivity|].
  repeat constructor.
Qed.

(** C5.  For every crop on which the processor and the model succeed with
    one logit per phrase, [classify_mood] passes exactly the four phrases
    "a happy pet", "a tired pet", "a playful pet", "a anxious pet", and
    returns the mood at an index where the distribution is maximal together
    with the probability at that index; the mood is one of the four. *)
Theorem classify_mood_argmax image inputs out row rows :
  clip_processor candidate_phrases image = Ok inputs ->
  clip_model inputs = Ok out ->
  logits_per_image out = row :: rows ->
  length row = length moods ->
  candidate_phrases
  = ["a happy pet"; "a tired pet"; "a playful pet"; "a anxious pet"]
  /\ trace_of (classify_mood image)
     = [CallClipProcessor
          ["a happy pet"; "a tired pet"; "a playful pet"; "a anxious pet"];
        CallClipModel]
  /\ exists i mood p,
       result_of (classify_mood image) = Ok (mood, p)
       /\ moods !! i = Some mood
       /\ softmax row !! i = Some p
       /\ (forall q, q ∈ softmax row -> (q <= p)%Q)
       /\ (mood = "happy" \/ mood = "tired" \/ mood = "playful"
           \/ mood = "anxious").
Proof.
  intros Hp Hm Hl Hlen.
  destruct (classify_mood_run image inputs out row rows Hp Hm Hl Hlen)
    as (i & mood & p & Hrun & Hmood & Hi & Hmax & _).
  split; [reflexivity|]. rewrite Hrun. split; [reflexivity|].
  exists i, mood, p. repeat split; try assumption.
  apply list_elem_of_lookup_2 in Hmood. unfold moods in Hmood.
  repeat (apply elem_of_cons in Hmood as [->|Hmood]; [auto|]).
  by apply elem_of_nil in Hmood.
Qed.

(** C7.  The index whose mood [classify_mood] returns is the smallest one
    at which the distribution takes its maximum: every index holding a
    probability equal to the returned one is at or after it. *)
Theorem classify_mood_first_max image inputs out row rows :
  clip_processor candidate_phrases image = Ok inputs ->
  clip_model inputs = Ok out ->
  logits_per_image out = row :: rows ->
  length row = length moods ->
  exists i mood p,
    result_of (classify_mood image) = Ok (mood, p)
    /\ moods !! i = Some mood
    /\ softmax row !! i = Some p
    /\ (forall q, q ∈ softmax row -> (q <= p)%Q)
    /\ (forall j q, softmax row !! j = Some q -> (q == p)%Q -> (i <= j)%nat).
Proof.
  intros Hp Hm Hl Hlen.
  destruct (classify_mood_run image inputs out row rows Hp Hm Hl Hlen)
    as (i & mood & p & Hrun & Hmood & Hi & Hmax & Hfirst).
  exists i, mood, p. rewrite Hrun. repeat split; try assumption.
  intros j q Hj Heq.
  destruct (le_lt_dec i j) as [Hle|Hlt]; [exact Hle|].
  exfalso. apply (Qlt_irrefl p).
  rewrite <- Heq at 1. eapply Hfirst; eassumption.
Qed.

(** C9.  The scenario of the design document: the detector returns one
    detection, a dog at (10,10,100,100) of confidence 0.9, and the
    classifier yields the distribution [0.1, 0.6, 0.2, 0.1], these values
    being met within a tolerance [tol] below 0.2 (the single-precision
    floats nearest to them are within one millionth).  Then the mood is
    "tired", its confidence is 0.6 within the same tolerance, the
    recommendation is the dog/tired entry of the table, and the script
    prints these three lines. *)
Theorem scenario_dog_tired tol r box c img cropped inputs out row rows :
  (tol < 1 # 5)%Q ->
  yolo_model image_path = Ok [r] ->
  xyxy (boxes r) = [box] -> cls (boxes r) = [c] ->
  Forall2 (close_to tol) (conf (boxes r)) [9 # 10] ->
  box_equals_reported (10, 10, 100, 100)%Z box ->
  label_of r (box, c) = Some "dog" ->
  Image_open image_path = Ok img ->
  Image_crop img (10, 10, 100, 100)%Z = Ok cropped ->
  clip_processor candidate_phrases cropped = Ok inputs ->
  clip_model inputs = Ok out ->
  logits_per_image out = row :: rows ->
  Forall2 (close_to tol) (softmax row) [1 # 10; 6 # 10; 2 # 10; 1 # 10] ->
  exists confidence,
    close_to tol confidence (6 # 10)
    /\ result_of (classify_mood cropped) = Ok ("tired", confidence)
    /\ get_recommendation "dog" "tired"
       = "Let your dog rest and provide fresh water 💧"
    /\ stdout (trace_of main)
       = ["Pet detected: dog";
          "Mood: tired (" +:+ format_1f (fmul confidence 100)
          +:+ "% confidence)";
          "Recommendation: Let your dog rest and provide fresh water 💧"].
Proof.
  intros Htol Hy Hx Hcls _ Hbox Hlabel Ho Hcrop Hp Hm Hl Hprobs.
  apply int_box_whole in Hbox.
  assert (length row = length moods) as Hlen.
  { rewrite <- softmax_length.
    rewrite (Forall2_length _ _ _ Hprobs). reflexivity. }
  destruct (classify_mood_run cropped inputs out row rows Hp Hm Hl Hlen)
    as (i & mood & p & Hrun & Hmood & Hi & Hmax & _).
  destruct (softmax row) as [|p0 [|p1 [|p2 [|p3 [|p4 ps]]]]];
    try (apply Forall2_length in Hprobs; discriminate Hprobs).
  apply Forall2_cons_1 in Hprobs as [E0 Hprobs].
  apply Forall2_cons_1 in Hprobs as [E1 Hprobs].
  apply Forall2_cons_1 in Hprobs as [E2 Hprobs].
  apply Forall2_cons_1 in Hprobs as [E3 _].
  assert (p0 <= p /\ p1 <= p /\ p2 <= p /\ p3 <= p)%Q
    as (L0 & L1 & L2 & L3).
  { repeat split; apply Hmax; set_solver. }
  pose proof E1 as E1'.
  unfold close_to in E0, E1', E2, E3.
  apply Qabs_Qle_condition in E0 as [E0l E0u].
  apply Qabs_Qle_condition in E1' as [E1l E1u].
  apply Qabs_Qle_condition in E2 as [E2l E2u].
  apply Qabs_Qle_condition in E3 as [E3l E3u].
  assert (i = 1%nat) as ->.
  { destruct i as [|[|[|[|i]]]]; simpl in Hi; try discriminate Hi;
      try reflexivity; injection Hi as <-; exfalso; lra. }
  simpl in Hi, Hmood. injection Hi as <-. injection Hmood as <-.
  exists p1. rewrite Hrun. split; [exact E1|].
  split; [reflexivity|]. split; [vm_compute; reflexivity|].
  rewrite (main_found
             [CallDetector image_path; CallImageOpen image_path;
              CallCrop (10, 10, 100, 100)%Z] "dog" cropped
             (10, 10, 100, 100)%Z).
  - unfold trace_of at 1. cbn [fst]. rewrite stdout_app.
    rewrite (report_pet_stdout "dog" cropped (10, 10, 100, 100)%Z _ _ _
               Hrun) by reflexivity.
    reflexivity.
  - rewrite <- Hbox in Hcrop |- *.
    apply (detect_and_crop_first image_path r [] [] box c [] "dog" img
             cropped); try assumption.
    + unfold detections. rewrite Hx, Hcls. reflexivity.
    + constructor.
    + unfold pet_labels. set_solver.
  - unfold pet_labels. set_solver.
Qed.

End PipelineClaims.

(** C8.  [get_recommendation] is a total function of two strings.  The
    table has eight entries; on each pair of {dog, cat} x {happy, tired,
    playful, anxious} the result is the non-empty entry of the table at that
    pair; on every other pair it is "Keep monitoring your pet.". *)
Theorem get_recommendation_total :
  size rules = 8%nat
  /\ (forall pet_type mood,
        pet_type ∈ pet_labels -> mood ∈ moods ->
        exists s, rules !! (pet_type, mood) = Some s
                  /\ get_recommendation pet_type mood = s
                  /\ s <> EmptyString)
  /\ (forall pet_type mood,
        ~ (pet_type ∈ pet_labels /\ mood ∈ moods) ->
        get_recommendation pet_type mood = "Keep monitoring your pet.").
Proof.
  split; [vm_compute; reflexivity|]. split.
  - intros pet_type mood Hp Hm.
    destruct (rules_lookup_domain pet_type mood Hp Hm) as (s & Hs & Hne).
    exists s. unfold get_recommendation. rewrite Hs. auto.
  - intros pet_type mood Hout. unfold get_recommendation.
    destruct (rules !! (pet_type, mood)) as [s|] eqn:E; [|reflexivity].
    exfalso. apply Hout. eapply rules_lookup_Some, E.
Qed.

(** The eight entries, as the source lists them. *)
Example get_recommendation_table :
  get_recommendation "dog" "happy"
  = "Take your dog for a walk or play fetch 🎾"
  /\ get_recommendation "dog" "tired"
     = "Let your dog rest and provide fresh water 💧"
  /\ get_recommendation "dog" "playful"
     = "Engage with toys to burn energy 🐕"
  /\ get_recommendation "dog" "anxious"
     = "Check if something is stressing your dog 😟"
  /\ get_recommendation "cat" "happy"
     = "Give your cat some toys or treats 🐱✨"
  /\ get_recommendation "cat" "tired"
     = "Let your cat nap in a quiet spot 💤"
  /\ get_recommendation "cat" "playful"
     = "Play with a laser pointer or string toy 🎯"
  /\ get_recommendation "cat" "anxious"
     = "Make sure the environment is calm 🐱😟".
Proof. vm_compute. repeat split. Qed.

Lemma get_recommendation_total_witness :
  (exists s, rules !! ("cat", "playful") = Some s
             /\ get_recommendation "cat" "playful" = s
             /\ s <> EmptyString)
  /\ get_recommendation "bird" "happy" = "Keep monitoring your pet."
  /\ get_recommendation "dog" "Happy" = "Keep monitoring your pet.".
Proof.
  destruct get_recommendation_total as (_ & Hin & Hout).
  split; [|split].
  - apply Hin; by_evaluation.
  - apply Hout. intros [Hp _]. revert Hp. by_evaluation.
  - apply Hout. intros [_ Hm]. revert Hm. by_evaluation.
Defined.

(** A street scene with a car only. *)
Lemma main_no_pet_witness :
  result_of (@main _ _ _ (Demo.detector [Demo.one_car]) Demo.pillow
               (Demo.clip []) Demo.float_ops Demo.opencv) = Ok tt
  /\ stdout (trace_of (@main _ _ _ (Demo.detector [Demo.one_car])
                         Demo.pillow (Demo.clip []) Demo.float_ops
                         Demo.opencv))
     = ["No pet detected in the image."]
  /\ Forall (fun ev => is_classification_call ev = false
                       /\ is_rendering_call ev = false)
       (trace_of (@main _ _ _ (Demo.detector [Demo.one_car]) Demo.pillow
                    (Demo.clip []) Demo.float_ops Demo.opencv)).
Proof.
  apply (@main_no_pet _ _ _ (Demo.detector [Demo.one_car]) Demo.pillow
           (Demo.clip []) Demo.float_ops Demo.opencv Demo.one_car []).
  - reflexivity.
  - right. unfold detections. simpl. all_not_pets.
Defined.

(** An image in which the detector finds nothing. *)
Example main_no_boxes :
  @main _ _ _ (Demo.detector [Demo.no_boxes]) Demo.pillow (Demo.clip [])
        Demo.float_ops Demo.opencv
  = ([CallDetector image_path; Print "No pet detected in the image."], Ok tt).
Proof. vm_compute. reflexivity. Qed.

(** Scores 1, 6, 2, 1: the second phrase wins. *)
Lemma classify_mood_argmax_witness :
  candidate_phrases
  = ["a happy pet"; "a tired pet"; "a playful pet"; "a anxious pet"]
  /\ trace_of (@classify_mood _ _ (Demo.clip [Demo.scores]) Demo.float_ops
                 Demo.dog_crop)
     = [CallClipProcessor
          ["a happy pet"; "a tired pet"; "a playful pet"; "a anxious pet"];
        CallClipModel]
  /\ exists i mood p,
       result_of (@classify_mood _ _ (Demo.clip [Demo.scores])
                    Demo.float_ops Demo.dog_crop) = Ok (mood, p)
       /\ moods !! i = Some mood
       /\ Demo.normalise Demo.scores !! i = Some p
       /\ (forall q, q ∈ Demo.normalise Demo.scores -> (q <= p)%Q)
       /\ (mood = "happy" \/ mood = "tired" \/ mood = "playful"
           \/ mood = "anxious").
Proof.
  apply (@classify_mood_argmax _ _ (Demo.clip [Demo.scores]) Demo.float_ops
           Demo.dog_crop (candidate_phrases, Demo.dog_crop)
           {| logits_per_image := [Demo.scores] |} Demo.scores []);
    reflexivity.
Defined.

(** Scores 1, 3, 3, 1: "tired" and "playful" tie at the maximum. *)
Lemma classify_mood_first_max_witness :
  exists i mood p,
    result_of (@classify_mood _ _ (Demo.clip [Demo.tied_scores])
                 Demo.float_ops Demo.cat_crop) = Ok (mood, p)
    /\ moods !! i = Some mood
    /\ Demo.normalise Demo.tied_scores !! i = Some p
    /\ (forall q, q ∈ Demo.normalise Demo.tied_scores -> (q <= p)%Q)
    /\ (forall j q, Demo.normalise Demo.tied_scores !! j = Some q ->
          (q == p)%Q -> (i <= j)%nat).
Proof.
  apply (@classify_mood_first_max _ _ (Demo.clip [Demo.tied_scores])
           Demo.float_ops Demo.cat_crop (candidate_phrases, Demo.cat_crop)
           {| logits_per_image := [Demo.tied_scores] |}
           Demo.tied_scores []);
    reflexivity.
Defined.

Example classify_mood_tie :
  Demo.normalise Demo.tied_scores = [1 # 8; 3 # 8; 3 # 8; 1 # 8]%Q
  /\ @classify_mood _ _ (Demo.clip [Demo.tied_scores]) Demo.float_ops
       Demo.cat_crop
     = ([CallClipProcessor
           ["a happy pet"; "a tired pet"; "a playful pet"; "a anxious pet"];
         CallClipModel],
        Ok ("tired", 3 # 8)).
Proof. vm_compute. split; reflexivity. Qed.

(** The scenario on single-precision floats, within one millionth. *)
Lemma scenario_dog_tired_witness :
  exists confidence,
    close_to (1 # 1000000) confidence (6 # 10)
    /\ result_of (@classify_mood _ _ (Demo.clip [Demo.scores])
                    Demo.float32_ops Demo.dog_crop)
       = Ok ("tired", confidence)
    /\ get_recommendation "dog" "tired"
       = "Let your dog rest and provide fresh water 💧"
    /\ stdout (trace_of
         (@main _ _ _ (Demo.detector [Demo.one_dog_float32]) Demo.pillow
            (Demo.clip [Demo.scores]) Demo.float32_ops Demo.opencv))
       = ["Pet detected: dog";
          "Mood: tired ("
          +:+ format_1f (@fmul Demo.float32_ops confidence 100)
          +:+ "% confidence)";
          "Recommendation: Let your dog rest and provide fresh water 💧"].
Proof.
  apply (@scenario_dog_tired _ _ _ (Demo.detector [Demo.one_dog_float32])
           Demo.pillow (Demo.clip [Demo.scores]) Demo.float32_ops
           Demo.opencv (1 # 1000000)%Q Demo.one_dog_float32
           (10 # 1, 10 # 1, 100 # 1, 100 # 1)%Q (16 # 1)%Q
           (image_path, []) Demo.dog_crop
           (candidate_phrases, Demo.dog_crop)
           {| logits_per_image := [Demo.scores] |} Demo.scores []).
  - reflexivity.
  - reflexivity.
  - reflexivity.
  - reflexivity.
  - repeat constructor. vm_compute. discriminate.
  - repeat split.
  - by_evaluation.
  - reflexivity.
  - reflexivity.
  - reflexivity.
  - reflexivity.
  - reflexivity.
  - repeat constructor; vm_compute; discriminate.
Defined.

(** On these floats the confidence returned is the float nearest to 0.6,
    not 0.6 itself, and the line printed reads 60.0%. *)
Example scenario_dog_tired_float32 :
  @classify_mood _ _ (Demo.clip [Demo.scores]) Demo.float32_ops
    Demo.dog_crop
  = ([CallClipProcessor candidate_phrases; CallClipModel],
     Ok ("tired", 5033165 # 8388608))
  /\ ~ (5033165 # 8388608 == 6 # 10)%Q
  /\ stdout (trace_of
        (@main _ _ _ (Demo.detector [Demo.one_dog_float32]) Demo.pillow
           (Demo.clip [Demo.scores]) Demo.float32_ops Demo.opencv))
     = ["Pet detected: dog";
        "Mood: tired (60.0% confidence)";
        "Recommendation: Let your dog rest and provide fresh water 💧"].
Proof.
  split; [vm_compute; reflexivity|]. split; [|vm_compute; reflexivity].
  intros E. vm_compute in E. discriminate E.
Qed.

(** * Further properties of the script *)

(** ** Detection: what a result tells about the detections *)

Section DetectionConverse.

Context {Image : Type} `{!Detector, !Pillow Image}.

Lemma scan_detections_cons path r box c dets :
  scan_detections path r ((box, c) :: dets)
  = (label <- lift (dict_getitem (names r) (int c)) ;;
     if bool_decide (label ∈ pet_labels) then
       img <- call (CallImageOpen path) (Image_open path) ;;
       cropped <- call (CallCrop (int_box box))
                       (Image_crop img (int_box box)) ;;
       ret (Some label, Some cropped, Some (int_box box))
     else scan_detections path r dets).
Proof. destruct box as [[[bx1 by1] bx2] by2]. reflexivity. Qed.

Lemma scan_detections_found path r dets label cropped b :
  result_of (scan_detections path r dets) = Ok (Some label, cropped, b) ->
  exists pre box c post img cr,
    dets = (pre ++ (box, c) :: post)%list
    /\ Forall (not_pet r) pre
    /\ label_of r (box, c) = Some label /\ label ∈ pet_labels
    /\ Image_open path = Ok img
    /\ Image_crop img (int_box box) = Ok cr
    /\ cropped = Some cr /\ b = Some (int_box box).
Proof.
  induction dets as [|[box c] dets IH].
  - simpl. intros [=].
  - rewrite scan_detections_cons. unfold dict_getitem.
    destruct (names r !! int c) as [l|] eqn:El; [|discriminate].
    rewrite bind_lift_Ok with (a := l) by reflexivity.
    case_bool_decide as Hl.
    + unfold call.
      destruct (Image_open path) as [img|] eqn:Eo; [|discriminate].
      rewrite bind_Ok.
      destruct (Image_crop img (int_box box)) as [cr|] eqn:Ec;
        [|discriminate].
      rewrite bind_Ok. simpl. intros [= <- <- <-].
      exists [], box, c, dets, img, cr. repeat split; auto.
    + intros Hr.
      destruct (IH Hr)
        as (pre & box' & c' & post & img & cr & -> & Hpre & Hrest).
      exists ((box, c) :: pre), box', c', post, img, cr.
      split; [reflexivity|]. split; [|exact Hrest].
      constructor; [|exact Hpre]. exists l. split; assumption.
Qed.

Lemma scan_detections_absent path r dets cropped b :
  result_of (scan_detections path r dets) = Ok (None, cropped, b) ->
  Forall (not_pet r) dets.
Proof.
  induction dets as [|[box c] dets IH]; [constructor|].
  rewrite scan_detections_cons. unfold dict_getitem.
  destruct (names r !! int c) as [l|] eqn:El; [|discriminate].
  rewrite bind_lift_Ok with (a := l) by reflexivity.
  case_bool_decide as Hl.
  - unfold call.
    destruct (Image_open path) as [img|]; [|discriminate].
    rewrite bind_Ok.
    destruct (Image_crop img (int_box box)) as [cr|]; [|discriminate].
    rewrite bind_Ok. simpl. intros [=].
  - intros Hr. constructor; [|exact (IH Hr)].
    exists l. split; assumption.
Qed.

Lemma scan_detections_trace path r dets :
  trace_of (scan_detections path r dets) = []
  \/ trace_of (scan_detections path r dets) = [CallImageOpen path]
  \/ exists b,
       trace_of (scan_detections path r dets)
       = [CallImageOpen path; CallCrop b].
Proof.
  induction dets as [|[box c] dets IH]; [left; reflexivity|].
  rewrite scan_detections_cons. unfold dict_getitem.
  destruct (names r !! int c) as [l|]; [|left; reflexivity].
  rewrite bind_lift_Ok with (a := l) by reflexivity.
  case_bool_decide as Hl; [|exact IH].
  unfold call.
  destruct (Image_open path) as [img|]; [|right; left; reflexivity].
  rewrite bind_Ok.
  destruct (Image_crop img (int_box box)) as [cr|];
    right; right; exists (int_box box); reflexivity.
Qed.

Lemma detect_and_crop_Ok_inv path d :
  result_of (detect_and_crop path) = Ok d ->
  exists r rest,
    yolo_model path = Ok (r :: rest)
    /\ result_of (scan_detections path r (detections r)) = Ok d.
Proof.
  unfold detect_and_crop, call.
  destruct (yolo_model path) as [results|]; [|discriminate].
  rewrite bind_Ok.
  destruct results as [|r rest]; [discriminate|].
  rewrite bind_lift_Ok with (a := r) by reflexivity.
  simpl. intros Hs. exists r, rest. auto.
Qed.

(** X1.  A label returned by [detect_and_crop] is always that of the first
    pet in detector order: the detections split into non-pets, the
    detection returned, and the rest; the box is that detection's box
    through [int] and the crop is what Pillow gave for this box. *)
Theorem detect_and_crop_found_is_first path label cropped b :
  result_of (detect_and_crop path) = Ok (Some label, cropped, b) ->
  exists r rest pre box c post img cr,
    yolo_model path = Ok (r :: rest)
    /\ detections r = (pre ++ (box, c) :: post)%list
    /\ Forall (not_pet r) pre
    /\ label_of r (box, c) = Some label /\ label ∈ pet_labels
    /\ Image_open path = Ok img
    /\ Image_crop img (int_box box) = Ok cr
    /\ cropped = Some cr /\ b = Some (int_box box).
Proof.
  intros Hr. apply detect_and_crop_Ok_inv in Hr as (r & rest & Hy & Hs).
  apply scan_detections_found in Hs
    as (pre & box & c & post & img & cr & Hs).
  exists r, rest, pre, box, c, post, img, cr. split; assumption.
Qed.

(** X2.  The sentinel is returned only when no detection is a pet: a
    [None] label means that every detection has a name and that none of
    the names is "dog" or "cat". *)
Theorem detect_and_crop_sentinel_only_without_pet path cropped b :
  result_of (detect_and_crop path) = Ok (None, cropped, b) ->
  exists r rest,
    yolo_model path = Ok (r :: rest)
    /\ Forall (not_pet r) (detections r)
    /\ cropped = None /\ b = None.
Proof.
  intros Hr. apply detect_and_crop_Ok_inv in Hr as (r & rest & Hy & Hs).
  exists r, rest. split; [exact Hy|].
  split; [exact (scan_detections_absent _ _ _ _ _ Hs)|].
  apply scan_detections_shape in Hs
    as [(_ & -> & ->)|(s & _ & _ & [=] & _)].
  auto.
Qed.

(** X3.  A class index without an entry in [r.names], met before any pet,
    ends the function with [KeyError]; no image is opened. *)
Theorem detect_and_crop_unnamed_class path r rest pre box c post :
  yolo_model path = Ok (r :: rest) ->
  detections r = (pre ++ (box, c) :: post)%list ->
  Forall (not_pet r) pre ->
  label_of r (box, c) = None ->
  detect_and_crop path = ([CallDetector path], Raise KeyError).
Proof.
  intros Hy Hd Hpre Hl.
  rewrite (detect_and_crop_scan path r rest Hy), Hd.
  rewrite scan_detections_skip by assumption.
  rewrite scan_detections_cons. unfold dict_getitem.
  unfold label_of in Hl. simpl in Hl. rewrite Hl.
  reflexivity.
Qed.

(** X4.  A failure of Pillow on the first pet ends the function with
    Pillow's exception: when the image cannot be opened, no crop is asked
    for; when the crop fails, it was asked once, for the box of that pet.
    Later detections are not tried. *)
Theorem detect_and_crop_pillow_failure
    path r rest pre box c post label e :
  yolo_model path = Ok (r :: rest) ->
  detections r = (pre ++ (box, c) :: post)%list ->
  Forall (not_pet r) pre ->
  label_of r (box, c) = Some label -> label ∈ pet_labels ->
  (Image_open path = Raise e ->
   detect_and_crop path
   = ([CallDetector path; CallImageOpen path], Raise e))
  /\ (forall img,
        Image_open path = Ok img ->
        Image_crop img (int_box box) = Raise e ->
        detect_and_crop path
        = ([CallDetector path; CallImageOpen path; CallCrop (int_box box)],
           Raise e)).
Proof.
  intros Hy Hd Hpre Hl Hp.
  rewrite (detect_and_crop_scan path r rest Hy), Hd.
  rewrite scan_detections_skip by assumption.
  rewrite scan_detections_cons. unfold dict_getitem.
  unfold label_of in Hl. simpl in Hl. rewrite Hl.
  rewrite bind_lift_Ok with (a := label) by reflexivity.
  rewrite bool_decide_eq_true_2 by assumption.
  split.
  - intros ->. reflexivity.
  - intros img Ho Hc.
    rewrite bind_call_Ok with (a := img) by assumption.
    rewrite Hc. reflexivity.
Qed.

(** X5.  Whatever the libraries do, [detect_and_crop] calls the detector
    once, first, opens the image at most once and crops at most once, in
    this order; it prints nothing and calls neither the classifier nor
    OpenCV. *)
Theorem detect_and_crop_trace path :
  (trace_of (detect_and_crop path) = [CallDetector path]
   \/ trace_of (detect_and_crop path)
      = [CallDetector path; CallImageOpen path]
   \/ exists b,
        trace_of (detect_and_crop path)
        = [CallDetector path; CallImageOpen path; CallCrop b])
  /\ stdout (trace_of (detect_and_crop path)) = []
  /\ Forall (fun ev => is_classification_call ev = false
                       /\ is_rendering_call ev = false)
       (trace_of (detect_and_crop path)).
Proof.
  assert (trace_of (detect_and_crop path) = [CallDetector path]
          \/ trace_of (detect_and_crop path)
             = [CallDetector path; CallImageOpen path]
          \/ exists b,
               trace_of (detect_and_crop path)
               = [CallDetector path; CallImageOpen path; CallCrop b])
    as Hshape.
  { unfold detect_and_crop, call.
    destruct (yolo_model path) as [results|]; [|left; reflexivity].
    rewrite bind_Ok.
    destruct results as [|r rest]; [left; reflexivity|].
    rewrite bind_lift_Ok with (a := r) by reflexivity.
    unfold trace_of at 1 3 5. cbn [fst app].
    destruct (scan_detections_trace path r
                (zip (xyxy (boxes r)) (cls (boxes r))))
      as [E|[E|(b & E)]]; rewrite E; eauto. }
  split; [exact Hshape|].
  destruct Hshape as [E|[E|(b & E)]]; rewrite E;
    (split; [reflexivity|repeat constructor]).
Qed.

End DetectionConverse.

(** ** Detection: what the result depends on *)

Lemma scan_detections_names {Image : Type} `{!Pillow Image}
    path (r1 r2 : Results) dets :
  names r1 = names r2 ->
  scan_detections path r1 dets = scan_detections path r2 dets.
Proof.
  intros Hn. induction dets as [|[box c] dets IH]; [reflexivity|].
  rewrite !scan_detections_cons, Hn.
  destruct (dict_getitem (names r2) (int c)) as [l|e]; [|reflexivity].
  rewrite !bind_lift_Ok with (a := l) by reflexivity.
  rewrite IH. reflexivity.
Qed.

(** X6.  The outcome of [detect_and_crop] is a function of the boxes, the
    class indices and the names of the first result of the detector: two
    detectors whose first results agree on these give the same trace and
    the same result, whatever the confidences and whatever further results
    they return. *)
Theorem detect_and_crop_ignores_confidence {Image : Type} `{!Pillow Image}
    (d1 d2 : Detector) path r1 rest1 r2 rest2 :
  @yolo_model d1 path = Ok (r1 :: rest1) ->
  @yolo_model d2 path = Ok (r2 :: rest2) ->
  xyxy (boxes r1) = xyxy (boxes r2) ->
  cls (boxes r1) = cls (boxes r2) ->
  names r1 = names r2 ->
  @detect_and_crop Image d1 _ path = @detect_and_crop Image d2 _ path.
Proof.
  intros Hy1 Hy2 Hx Hc Hn.
  rewrite (@detect_and_crop_scan Image d1 _ path r1 rest1 Hy1).
  rewrite (@detect_and_crop_scan Image d2 _ path r2 rest2 Hy2).
  unfold detections. rewrite Hx, Hc.
  rewrite (scan_detections_names path r1 r2) by assumption.
  reflexivity.
Qed.

(** ** Detection: the integer box *)

Lemma int_cut_toward_zero (x : Q) : cut_toward_zero (int x) x.
Proof.
  destruct x as [n d]. unfold cut_toward_zero, int. cbn [Qnum Qden].
  split.
  - pose proof (Z.quot_rem' n (Zpos d)) as Hqr.
    pose proof (Z.rem_bound_abs n (Zpos d)) as Hrem.
    unfold Qlt, Qabs, Qminus, Qplus, Qopp, inject_Z. cbn [Qnum Qden].
    rewrite Pos.mul_1_r.
    replace (n * 1 + - Z.quot n (Zpos d) * Zpos d)%Z
      with (Z.rem n (Zpos d)) by lia.
    lia.
  - pose proof (Z.quot_abs n (Zpos d)) as Habs.
    pose proof (Z.mul_quot_le (Z.abs n) (Zpos d)) as Hle.
    unfold Qle, Qabs, inject_Z. cbn [Qnum Qden].
    rewrite <- Habs by lia. cbn [Z.abs].
    rewrite Z.mul_comm, Z.mul_1_r. apply Hle; lia.
Qed.

Section DetectionBox.

Context {Image : Type} `{!Detector, !Pillow Image}.

(** X7.  The box returned for the first pet is the reported box cut toward
    zero: each coordinate is less than one pixel from the detector's and
    no larger in absolute value. *)
Theorem detect_and_crop_box_within_a_pixel
    path r rest pre box c post label img cropped :
  yolo_model path = Ok (r :: rest) ->
  detections r = (pre ++ (box, c) :: post)%list ->
  Forall (not_pet r) pre ->
  label_of r (box, c) = Some label -> label ∈ pet_labels ->
  Image_open path = Ok img ->
  Image_crop img (int_box box) = Ok cropped ->
  exists b,
    result_of (detect_and_crop path) = Ok (Some label, Some cropped, Some b)
    /\ box_cut_toward_zero b box.
Proof.
  intros Hy Hd Hpre Hl Hp Ho Hc. exists (int_box box).
  rewrite (detect_and_crop_first path r rest pre box c post label img cropped)
    by assumption.
  split; [reflexivity|].
  destruct box as [[[bx1 by1] bx2] by2]. simpl.
  repeat split; apply int_cut_toward_zero.
Qed.

End DetectionBox.

(** The cat returned for [car_cat_dog] is preceded by the car alone. *)
Lemma detect_and_crop_found_is_first_witness :
  exists r rest pre box c post img cr,
    @yolo_model (Demo.detector [Demo.car_cat_dog]) "pets.jpg"
    = Ok (r :: rest)
    /\ detections r = (pre ++ (box, c) :: post)%list
    /\ Forall (not_pet r) pre
    /\ label_of r (box, c) = Some "cat" /\ "cat" ∈ pet_labels
    /\ @Image_open _ Demo.pillow "pets.jpg" = Ok img
    /\ @Image_crop _ Demo.pillow img (int_box box) = Ok cr
    /\ Some ("pets.jpg", [(1, 2, 30, 40)%Z]) = Some cr
    /\ Some (1, 2, 30, 40)%Z = Some (int_box box).
Proof.
  apply (@detect_and_crop_found_is_first _
           (Demo.detector [Demo.car_cat_dog]) Demo.pillow "pets.jpg" "cat"
           (Some ("pets.jpg", [(1, 2, 30, 40)%Z]))
           (Some (1, 2, 30, 40)%Z)).
  by_evaluation.
Defined.

Lemma detect_and_crop_sentinel_only_without_pet_witness :
  exists r rest,
    @yolo_model (Demo.detector [Demo.one_car]) "street.jpg" = Ok (r :: rest)
    /\ Forall (not_pet r) (detections r)
    /\ @None Demo.image = None /\ @None box_t = None.
Proof.
  apply (@detect_and_crop_sentinel_only_without_pet _
           (Demo.detector [Demo.one_car]) Demo.pillow "street.jpg"
           None None).
  by_evaluation.
Defined.

(** Class 99 has no name: the dog that follows is not reached. *)
Lemma detect_and_crop_unnamed_class_witness :
  @detect_and_crop _ (Demo.detector [Demo.unnamed_then_dog]) Demo.pillow
    "odd.jpg" = ([CallDetector "odd.jpg"], Raise KeyError).
Proof.
  apply (@detect_and_crop_unnamed_class _
           (Demo.detector [Demo.unnamed_then_dog]) Demo.pillow "odd.jpg"
           Demo.unnamed_then_dog [] []
           (5 # 1, 6 # 1, 50 # 1, 60 # 1)%Q (99 # 1)%Q
           [(10 # 1, 10 # 1, 100 # 1, 100 # 1, 16 # 1)%Q]).
  - reflexivity.
  - reflexivity.
  - all_not_pets.
  - by_evaluation.
Defined.

Lemma detect_and_crop_pillow_failure_witness :
  @detect_and_crop _ (Demo.detector [Demo.one_dog]) Demo.pillow_unreadable
    "dog.jpg"
  = ([CallDetector "dog.jpg"; CallImageOpen "dog.jpg"],
     Raise (LibraryError "PIL"))
  /\ @detect_and_crop _ (Demo.detector [Demo.one_dog]) Demo.pillow_bad_crop
       "dog.jpg"
     = ([CallDetector "dog.jpg"; CallImageOpen "dog.jpg";
         CallCrop (10, 10, 100, 100)%Z],
        Raise ValueError).
Proof.
  split.
  - apply (@detect_and_crop_pillow_failure _ (Demo.detector [Demo.one_dog])
             Demo.pillow_unreadable "dog.jpg" Demo.one_dog [] []
             (10 # 1, 10 # 1, 100 # 1, 100 # 1)%Q (16 # 1)%Q [] "dog"
             (LibraryError "PIL")).
    + reflexivity.
    + reflexivity.
    + all_not_pets.
    + by_evaluation.
    + by_evaluation.
    + reflexivity.
  - apply (@detect_and_crop_pillow_failure _ (Demo.detector [Demo.one_dog])
             Demo.pillow_bad_crop "dog.jpg" Demo.one_dog [] []
             (10 # 1, 10 # 1, 100 # 1, 100 # 1)%Q (16 # 1)%Q [] "dog"
             ValueError) with (img := ("dog.jpg", [])).
    + reflexivity.
    + reflexivity.
    + all_not_pets.
    + by_evaluation.
    + by_evaluation.
    + reflexivity.
    + reflexivity.
Defined.

(** The same dog with confidence 0.9 or 0.1, alone or followed by a second
    result: the same outcome. *)
Lemma detect_and_crop_ignores_confidence_witness :
  @detect_and_crop _ (Demo.detector [Demo.one_dog]) Demo.pillow "dog.jpg"
  = @detect_and_crop _ (Demo.detector [Demo.one_dog_unsure; Demo.one_car])
      Demo.pillow "dog.jpg".
Proof.
  apply (@detect_and_crop_ignores_confidence _ Demo.pillow
           (Demo.detector [Demo.one_dog])
           (Demo.detector [Demo.one_dog_unsure; Demo.one_car]) "dog.jpg"
           Demo.one_dog [] Demo.one_dog_unsure [Demo.one_car]);
    reflexivity.
Defined.

(** The box (-3.5, 10.75, 100.9, 100.05) comes back as (-3, 10, 100, 100). *)
Lemma detect_and_crop_box_within_a_pixel_witness :
  exists b,
    result_of (@detect_and_crop _ (Demo.detector [Demo.dog_off_frame])
                 Demo.pillow "dog.jpg")
    = Ok (Some "dog", Some ("dog.jpg", [(-3, 10, 100, 100)%Z]), Some b)
    /\ box_cut_toward_zero b (- (7 # 2), 43 # 4, 1009 # 10, 2001 # 20)%Q.
Proof.
  apply (@detect_and_crop_box_within_a_pixel _
           (Demo.detector [Demo.dog_off_frame]) Demo.pillow "dog.jpg"
           Demo.dog_off_frame [] []
           (- (7 # 2), 43 # 4, 1009 # 10, 2001 # 20)%Q (16 # 1)%Q [] "dog"
           ("dog.jpg", [])).
  - reflexivity.
  - reflexivity.
  - all_not_pets.
  - by_evaluation.
  - by_evaluation.
  - reflexivity.
  - reflexivity.
Defined.

(** ** Mood classification: edge cases *)

(** The index of the first maximum is the only index that [argmax] can
    return. *)
Lemma argmax_unique (xs : list Q) (i : nat) (p : Q) :
  xs !! i = Some p ->
  (forall q, q ∈ xs -> (q <= p)%Q) ->
  (forall j q, (j < i)%nat -> xs !! j = Some q -> (q < p)%Q) ->
  argmax xs = Ok i.
Proof.
  intros Hi Hmax Hfirst.
  destruct (argmax_spec xs) as (k & m & Ha & Hk & Hkmax & Hkfirst).
  { intros ->. discriminate Hi. }
  rewrite Ha. f_equal.
  destruct (lt_eq_lt_dec k i) as [[Hlt|Heq]|Hgt]; [exfalso|exact Heq|exfalso].
  - apply (Qlt_irrefl p). apply Qle_lt_trans with m.
    + apply Hkmax. apply list_elem_of_lookup. eauto.
    + eapply Hfirst; eassumption.
  - apply (Qlt_irrefl m). apply Qle_lt_trans with p.
    + apply Hmax. apply list_elem_of_lookup. eauto.
    + eapply Hkfirst; eassumption.
Qed.

Lemma softmax_nil `{!FloatOps} : softmax [] = [].
Proof. apply nil_length_inv. rewrite softmax_length. reflexivity. Qed.

Section ClassificationEdges.

Context {Image Inputs : Type} `{!Clip Image Inputs, !FloatOps}.

Lemma classify_mood_Ok_inv image mood p :
  result_of (classify_mood image) = Ok (mood, p) ->
  exists inputs out row rows i,
    clip_processor candidate_phrases image = Ok inputs
    /\ clip_model inputs = Ok out
    /\ logits_per_image out = row :: rows
    /\ moods !! i = Some mood /\ mood ∈ moods
    /\ softmax row !! i = Some p
    /\ (forall q, q ∈ softmax row -> (q <= p)%Q)
    /\ (forall j q, (j < i)%nat -> softmax row !! j = Some q -> (q < p)%Q).
Proof.
  unfold classify_mood. intros Hr.
  apply bind_result_Ok in Hr as (inputs & Hp & Hr).
  apply bind_result_Ok in Hr as (out & Hm & Hr).
  apply bind_result_Ok in Hr as (probs & Hprobs & Hr).
  apply bind_result_Ok in Hr as (i & Ha & Hr).
  apply bind_result_Ok in Hr as (m & Hmood & Hr).
  apply bind_result_Ok in Hr as (q & Hi & Hr).
  injection Hr as <- <-.
  change (clip_processor candidate_phrases image = Ok inputs) in Hp.
  change (clip_model inputs = Ok out) in Hm.
  change (getitem (map softmax (logits_per_image out)) 0 = Ok probs)
    in Hprobs.
  change (argmax probs = Ok i) in Ha.
  change (getitem moods i = Ok m) in Hmood.
  change (getitem probs i = Ok q) in Hi.
  destruct (logits_per_image out) as [|row rows] eqn:El;
    [discriminate Hprobs|].
  injection Hprobs as <-.
  unfold getitem in Hmood, Hi.
  destruct (moods !! i) as [m'|] eqn:Emood; [|discriminate Hmood].
  injection Hmood as ->.
  destruct (softmax row !! i) as [q'|] eqn:Ei; [|discriminate Hi].
  injection Hi as ->.
  destruct (argmax_spec (softmax row)) as (k & v & Hk & Hv & Hmax & Hfirst).
  { intros E. rewrite E in Ei. discriminate Ei. }
  rewrite Ha in Hk. injection Hk as <-.
  rewrite Ei in Hv. injection Hv as <-.
  exists inputs, out, row, rows, i. repeat split; auto.
  eapply list_elem_of_lookup_2, Emood.
Qed.

(** X8.  Whenever [classify_mood] returns, the mood is one of the four and
    the confidence is the largest entry of the softmax of the first row of
    logits, at the first index where it occurs: this holds for a row of
    any length.  The processor was called on the four phrases and the
    model once on what the processor made of them, and nothing else was
    called. *)
Theorem classify_mood_returns_maximum image mood p :
  result_of (classify_mood image) = Ok (mood, p) ->
  exists inputs out row rows i,
    clip_processor candidate_phrases image = Ok inputs
    /\ clip_model inputs = Ok out
    /\ logits_per_image out = row :: rows
    /\ moods !! i = Some mood /\ mood ∈ moods
    /\ softmax row !! i = Some p
    /\ (forall q, q ∈ softmax row -> (q <= p)%Q)
    /\ (forall j q, (j < i)%nat -> softmax row !! j = Some q -> (q < p)%Q)
    /\ trace_of (classify_mood image)
       = [CallClipProcessor candidate_phrases; CallClipModel].
Proof.
  intros Hr.
  destruct (classify_mood_Ok_inv image mood p Hr)
    as (inputs & out & row & rows & i & Hp & Hm & Hl & Hmood & Hin & Hi
        & Hmax & Hfirst).
  exists inputs, out, row, rows, i. repeat split; try assumption.
  unfold classify_mood.
  rewrite bind_call_Ok with (a := inputs) by assumption.
  rewrite bind_call_Ok with (a := out) by assumption.
  rewrite bind_lift_Ok with (a := softmax row)
    by (rewrite Hl; reflexivity).
  rewrite bind_lift_Ok with (a := i)
    by (apply argmax_unique with p; assumption).
  rewrite bind_lift_Ok with (a := mood)
    by (unfold getitem; rewrite Hmood; reflexivity).
  rewrite bind_lift_Ok with (a := p)
    by (unfold getitem; rewrite Hi; reflexivity).
  reflexivity.
Qed.

(** X9.  A model output without any row of logits ends [classify_mood]
    with [IndexError]; an empty first row ends it with [ValueError], the
    error of [argmax] on an empty array. *)
Theorem classify_mood_degenerate_logits image inputs out :
  clip_processor candidate_phrases image = Ok inputs ->
  clip_model inputs = Ok out ->
  (logits_per_image out = [] ->
   classify_mood image
   = ([CallClipProcessor candidate_phrases; CallClipModel],
      Raise IndexError))
  /\ (forall rows,
        logits_per_image out = [] :: rows ->
        classify_mood image
        = ([CallClipProcessor candidate_phrases; CallClipModel],
           Raise ValueError)).
Proof.
  intros Hp Hm. unfold classify_mood.
  rewrite bind_call_Ok with (a := inputs) by assumption.
  rewrite bind_call_Ok with (a := out) by assumption.
  split.
  - intros ->. reflexivity.
  - intros rows ->. simpl. rewrite softmax_nil. reflexivity.
Qed.

(** X10.  When the first maximum of the distribution sits at an index
    beyond the four moods (the model gave more logits than phrases),
    [moods[best_idx]] raises [IndexError]. *)
Theorem classify_mood_index_beyond_moods image inputs out row rows i p :
  clip_processor candidate_phrases image = Ok inputs ->
  clip_model inputs = Ok out ->
  logits_per_image out = row :: rows ->
  softmax row !! i = Some p ->
  (forall q, q ∈ softmax row -> (q <= p)%Q) ->
  (forall j q, (j < i)%nat -> softmax row !! j = Some q -> (q < p)%Q) ->
  (length moods <= i)%nat ->
  classify_mood image
  = ([CallClipProcessor candidate_phrases; CallClipModel], Raise IndexError).
Proof.
  intros Hp Hm Hl Hi Hmax Hfirst Hlen. unfold classify_mood.
  rewrite bind_call_Ok with (a := inputs) by assumption.
  rewrite bind_call_Ok with (a := out) by assumption.
  rewrite bind_lift_Ok with (a := softmax row)
    by (rewrite Hl; reflexivity).
  rewrite bind_lift_Ok with (a := i)
    by (apply argmax_unique with p; assumption).
  assert (getitem moods i = Raise IndexError) as ->.
  { unfold getitem. rewrite (lookup_ge_None_2 moods i Hlen). reflexivity. }
  reflexivity.
Qed.

(** X11.  Whatever the libraries do, [classify_mood] calls the processor
    with the four phrases first; if the processor raises, the model is not
    called and the exception is the result; otherwise the model is called
    once and nothing else is.  Nothing is printed. *)
Theorem classify_mood_trace image :
  ((exists e,
      clip_processor candidate_phrases image = Raise e
      /\ classify_mood image
         = ([CallClipProcessor candidate_phrases], Raise e))
   \/ (exists inputs,
         clip_processor candidate_phrases image = Ok inputs
         /\ trace_of (classify_mood image)
            = [CallClipProcessor candidate_phrases; CallClipModel]))
  /\ stdout (trace_of (classify_mood image)) = [].
Proof.
  assert ((exists e,
             clip_processor candidate_phrases image = Raise e
             /\ classify_mood image
                = ([CallClipProcessor candidate_phrases], Raise e))
          \/ (exists inputs,
                clip_processor candidate_phrases image = Ok inputs
                /\ trace_of (classify_mood image)
                   = [CallClipProcessor candidate_phrases; CallClipModel]))
    as Hshape.
  { unfold classify_mood, call.
    destruct (clip_processor candidate_phrases image) as [inputs|e];
      [right; exists inputs; split; [reflexivity|]
      |left; exists e; split; reflexivity].
    rewrite bind_Ok.
    destruct (clip_model inputs) as [out|e]; [|reflexivity].
    rewrite bind_Ok.
    repeat (rewrite trace_of_bind; unfold lift at 1; cbn [trace_of fst app];
            match goal with
            | |- context [match result_of ?m with _ => _ end] =>
                destruct (result_of m)
            end; [|reflexivity]).
    reflexivity. }
  split; [exact Hshape|].
  destruct Hshape as [(e & _ & ->)|(inputs & _ & ->)]; reflexivity.
Qed.

End ClassificationEdges.

Lemma classify_mood_returns_maximum_witness :
  exists inputs out row rows i,
    @clip_processor _ _ (Demo.clip [Demo.tied_scores]) candidate_phrases
      Demo.cat_crop = Ok inputs
    /\ @clip_model _ _ (Demo.clip [Demo.tied_scores]) inputs = Ok out
    /\ logits_per_image out = row :: rows
    /\ moods !! i = Some "tired" /\ "tired" ∈ moods
    /\ @softmax Demo.float_ops row !! i = Some (3 # 8)%Q
    /\ (forall q, q ∈ @softmax Demo.float_ops row -> (q <= 3 # 8)%Q)
    /\ (forall j q, (j < i)%nat ->
          @softmax Demo.float_ops row !! j = Some q -> (q < 3 # 8)%Q)
    /\ trace_of (@classify_mood _ _ (Demo.clip [Demo.tied_scores])
                   Demo.float_ops Demo.cat_crop)
       = [CallClipProcessor candidate_phrases; CallClipModel].
Proof.
  apply (@classify_mood_returns_maximum _ _ (Demo.clip [Demo.tied_scores])
           Demo.float_ops Demo.cat_crop "tired" (3 # 8)%Q).
  by_evaluation.
Defined.

Lemma classify_mood_degenerate_logits_witness :
  @classify_mood _ _ (Demo.clip []) Demo.float_ops Demo.dog_crop
  = ([CallClipProcessor candidate_phrases; CallClipModel], Raise IndexError)
  /\ @classify_mood _ _ (Demo.clip [[]]) Demo.float_ops Demo.dog_crop
     = ([CallClipProcessor candidate_phrases; CallClipModel],
        Raise ValueError).
Proof.
  split.
  - apply (@classify_mood_degenerate_logits _ _ (Demo.clip [])
             Demo.float_ops Demo.dog_crop
             (candidate_phrases, Demo.dog_crop)
             {| logits_per_image := [] |}); reflexivity.
  - apply (@classify_mood_degenerate_logits _ _ (Demo.clip [[]])
             Demo.float_ops Demo.dog_crop
             (candidate_phrases, Demo.dog_crop)
             {| logits_per_image := [[]] |}) with (rows := []);
      reflexivity.
Defined.

(** Five logits with the largest in fifth place. *)
Lemma classify_mood_index_beyond_moods_witness :
  @classify_mood _ _ (Demo.clip [Demo.five_scores]) Demo.float_ops
    Demo.dog_crop
  = ([CallClipProcessor candidate_phrases; CallClipModel], Raise IndexError).
Proof.
  apply (@classify_mood_index_beyond_moods _ _
           (Demo.clip [Demo.five_scores]) Demo.float_ops Demo.dog_crop
           (candidate_phrases, Demo.dog_crop)
           {| logits_per_image := [Demo.five_scores] |}
           Demo.five_scores [] 4%nat (5 # 9)%Q).
  - reflexivity.
  - reflexivity.
  - reflexivity.
  - reflexivity.
  - intros q Hq.
    change (q ∈ [1 # 9; 1 # 9; 1 # 9; 1 # 9; 5 # 9]%Q) in Hq.
    repeat (apply elem_of_cons in Hq as [->|Hq];
            [vm_compute; discriminate|]).
    apply elem_of_nil in Hq. destruct Hq.
  - intros j q Hj Hq.
    change ([1 # 9; 1 # 9; 1 # 9; 1 # 9; 5 # 9]%Q !! j = Some q) in Hq.
    destruct j as [|[|[|[|j]]]]; [| | | |lia];
      injection Hq as <-; reflexivity.
  - simpl. lia.
Defined.

(** ** The recommendation table: no entry is the fallback, no two agree *)

Ltac split_domain Hp Hm :=
  unfold pet_labels in Hp; unfold moods in Hm;
  repeat (apply elem_of_cons in Hp as [->|Hp]);
  [| |by apply elem_of_nil in Hp];
  (repeat (apply elem_of_cons in Hm as [->|Hm]);
   [| | | |by apply elem_of_nil in Hm]).

(** X12.  [get_recommendation] returns the fallback string exactly on the
    pairs outside {dog, cat} x {happy, tired, playful, anxious}: no entry
    of the table is the fallback, so the fallback always tells that the
    pair was unknown. *)
Theorem get_recommendation_default_iff (pet_type mood : string) :
  get_recommendation pet_type mood = default_recommendation
  <-> ~ (pet_type ∈ pet_labels /\ mood ∈ moods).
Proof.
  split.
  - intros E [Hp Hm]. revert E.
    split_domain Hp Hm; vm_compute; discriminate.
  - intros Hout. unfold get_recommendation.
    destruct (rules !! (pet_type, mood)) as [s|] eqn:E; [|reflexivity].
    exfalso. apply Hout. eapply rules_lookup_Some, E.
Qed.

(** X13.  On the eight pairs of the table the recommendation determines the
    pair: two pairs with the same recommendation are the same pair. *)
Theorem get_recommendation_injective (pet1 mood1 pet2 mood2 : string) :
  pet1 ∈ pet_labels -> mood1 ∈ moods ->
  pet2 ∈ pet_labels -> mood2 ∈ moods ->
  get_recommendation pet1 mood1 = get_recommendation pet2 mood2 ->
  pet1 = pet2 /\ mood1 = mood2.
Proof.
  intros Hp1 Hm1 Hp2 Hm2.
  split_domain Hp1 Hm1; split_domain Hp2 Hm2;
    vm_compute; intros E; first [discriminate E | split; reflexivity].
Qed.

Lemma get_recommendation_injective_witness :
  "cat" = "cat" /\ "tired" = "tired".
Proof.
  apply (get_recommendation_injective "cat" "tired" "cat" "tired");
    by_evaluation.
Defined.

Lemma get_recommendation_default_iff_witness :
  get_recommendation "bird" "happy" = default_recommendation
  /\ ~ ("dog" ∈ pet_labels /\ "sleepy" ∈ moods).
Proof.
  split.
  - apply (proj2 (get_recommendation_default_iff "bird" "happy")).
    intros [Hp _]. revert Hp. by_evaluation.
  - apply (proj1 (get_recommendation_default_iff "dog" "sleepy")).
    by_evaluation.
Defined.

(** ** Annotation rendering *)

Section Rendering.

Context {Frame : Type} `{!FloatOps, !OpenCV Frame}.

(** The calls of a complete annotation; every run makes a prefix of them. *)
Lemma draw_detection_with_mood_prefix
    path x1 y1 x2 y2 pet_type mood confidence :
  exists label tw th,
    trace_of (draw_detection_with_mood path (x1, y1, x2, y2) pet_type mood
                confidence)
    `prefix_of`
    [CallImread path;
     CallRectangle (x1, y1) (x2, y2) (0, 255, 0)%Z 2;
     CallGetTextSize label;
     CallRectangle (x1, y1 - th - 10)%Z (x1 + tw + 10, y1)%Z
       (0, 255, 0)%Z (-1);
     CallPutText label (x1 + 5, y1 - 5)%Z].
Proof.
  unfold draw_detection_with_mood.
  set (label := pet_type +:+ " - " +:+ mood +:+ " ("
                +:+ format_1f (fmul confidence 100) +:+ "%)").
  destruct (cv2_getTextSize label FONT_HERSHEY_SIMPLEX (6 # 10) 2)
    as [[tw th] bl] eqn:Es.
  exists label, tw, th.
  rewrite trace_of_bind, trace_of_call, result_of_call.
  rewrite trace_of_bind, trace_of_rectangle.
  destruct (result_of (rectangle _ _ _ _ _)) as [img1|]; [|by eexists].
  rewrite trace_of_bind, trace_of_call, result_of_call.
  rewrite trace_of_bind, trace_of_rectangle.
  destruct (result_of (rectangle _ _ _ _ _)) as [img2|]; [|by eexists].
  rewrite trace_of_bind, trace_of_putText.
  destruct (result_of (putText _ _ _ _ _ _ _)); by eexists.
Qed.

(** An annotation that returns has made all five calls. *)
Lemma draw_detection_with_mood_Ok_inv
    path x1 y1 x2 y2 pet_type mood confidence img :
  result_of (draw_detection_with_mood path (x1, y1, x2, y2) pet_type mood
               confidence) = Ok img ->
  exists label tw th bl,
    label = pet_type +:+ " - " +:+ mood +:+ " ("
            +:+ format_1f (fmul confidence 100) +:+ "%)"
    /\ cv2_getTextSize label FONT_HERSHEY_SIMPLEX (6 # 10) 2
       = ((tw, th), bl)
    /\ trace_of (draw_detection_with_mood path (x1, y1, x2, y2) pet_type
                   mood confidence)
       = [CallImread path;
          CallRectangle (x1, y1) (x2, y2) (0, 255, 0)%Z 2;
          CallGetTextSize label;
          CallRectangle (x1, y1 - th - 10)%Z (x1 + tw + 10, y1)%Z
            (0, 255, 0)%Z (-1);
          CallPutText label (x1 + 5, y1 - 5)%Z].
Proof.
  unfold draw_detection_with_mood.
  set (label := pet_type +:+ " - " +:+ mood +:+ " ("
                +:+ format_1f (fmul confidence 100) +:+ "%)").
  destruct (cv2_getTextSize label FONT_HERSHEY_SIMPLEX (6 # 10) 2)
    as [[tw th] bl] eqn:Es.
  intros Hr. exists label, tw, th, bl.
  split; [reflexivity|]. split; [exact Es|].
  apply bind_result_Ok in Hr as (img0 & H0 & Hr).
  rewrite (trace_of_bind_Ok _ _ _ H0), trace_of_call.
  apply bind_result_Ok in Hr as (img1 & H1 & Hr).
  rewrite (trace_of_bind_Ok _ _ _ H1), trace_of_rectangle.
  apply bind_result_Ok in Hr as (size & H2 & Hr).
  rewrite (trace_of_bind_Ok _ _ _ H2), trace_of_call.
  rewrite result_of_call in H2. injection H2 as <-.
  apply bind_result_Ok in Hr as (img2 & H3 & Hr).
  rewrite (trace_of_bind_Ok _ _ _ H3), trace_of_rectangle.
  apply bind_result_Ok in Hr as (img3 & H4 & Hr).
  rewrite (trace_of_bind_Ok _ _ _ H4), trace_of_putText.
  reflexivity.
Qed.

(** X14.  In an annotation that succeeds, the filled rectangle behind the
    label is laid out from the size OpenCV gives for the very text that is
    then written: it starts at the left edge of the detection box, rests on
    its top edge, and surrounds the text (origin [org], width [tw], height
    [th]) with a margin of 5 pixels on each side.  It reaches above the
    image (negative ordinate) exactly when the box is less than [th + 10]
    pixels from the top. *)
Theorem draw_detection_with_mood_layout
    path x1 y1 x2 y2 pet_type mood confidence img :
  result_of (draw_detection_with_mood path (x1, y1, x2, y2) pet_type mood
               confidence) = Ok img ->
  exists label tw th bl bg1 bg2 org,
    trace_of (draw_detection_with_mood path (x1, y1, x2, y2) pet_type mood
                confidence)
    = [CallImread path;
       CallRectangle (x1, y1) (x2, y2) (0, 255, 0)%Z 2;
       CallGetTextSize label;
       CallRectangle bg1 bg2 (0, 255, 0)%Z (-1);
       CallPutText label org]
    /\ cv2_getTextSize label FONT_HERSHEY_SIMPLEX (6 # 10) 2
       = ((tw, th), bl)
    /\ inset_by 5 (fst org, snd org - th)%Z (fst org + tw, snd org)%Z
         bg1 bg2
    /\ fst bg1 = x1 /\ snd bg2 = y1
    /\ (snd bg1 < 0 <-> y1 < th + 10)%Z.
Proof.
  intros Hr.
  apply draw_detection_with_mood_Ok_inv in Hr
    as (label & tw & th & bl & _ & Hs & Ht).
  exists label, tw, th, bl, (x1, y1 - th - 10)%Z, (x1 + tw + 10, y1)%Z,
    (x1 + 5, y1 - 5)%Z.
  split; [exact Ht|]. split; [exact Hs|].
  unfold inset_by. cbn [fst snd]. repeat split; lia.
Qed.

(** X15.  Whatever OpenCV does, [draw_detection_with_mood] makes at most
    five calls, all of them to OpenCV, and prints nothing; it never opens
    a window. *)
Theorem draw_detection_with_mood_only_draws
    path box_coords pet_type mood confidence :
  Forall (fun ev => is_rendering_call ev = true)
    (trace_of (draw_detection_with_mood path box_coords pet_type mood
                 confidence))
  /\ stdout (trace_of (draw_detection_with_mood path box_coords pet_type
                         mood confidence)) = []
  /\ (length (trace_of (draw_detection_with_mood path box_coords pet_type
                          mood confidence)) <= 5)%nat
  /\ (forall title,
        CallImshow title
        ∉ trace_of (draw_detection_with_mood path box_coords pet_type mood
                      confidence)).
Proof.
  destruct box_coords as [[[x1 y1] x2] y2].
  destruct (draw_detection_with_mood_prefix path x1 y1 x2 y2 pet_type mood
              confidence) as (label & tw & th & k & Hk).
  set (tr := trace_of (draw_detection_with_mood path (x1, y1, x2, y2)
                         pet_type mood confidence)) in *.
  assert (Forall (fun ev => is_rendering_call ev = true) (tr ++ k)%list)
    as Hall by (rewrite <- Hk; repeat constructor).
  apply Forall_app in Hall as [Hall _].
  split; [exact Hall|]. split; [|split].
  - clear Hk. induction Hall as [|ev tr' Hev _ IH]; [reflexivity|].
    destruct ev; try discriminate Hev; exact IH.
  - apply (f_equal length) in Hk. rewrite length_app in Hk.
    simpl in Hk. lia.
  - intros title Hin.
    assert (CallImshow title ∈ (tr ++ k)%list) as Hfull
      by (apply elem_of_app; left; exact Hin).
    rewrite <- Hk in Hfull.
    repeat (apply elem_of_cons in Hfull as [Hfull|Hfull];
            [discriminate Hfull|]).
    by apply elem_of_nil in Hfull.
Qed.

End Rendering.

Lemma draw_detection_with_mood_layout_witness :
  exists label tw th bl bg1 bg2 org,
    trace_of (@draw_detection_with_mood _ Demo.float_ops Demo.opencv
                "dog.jpg" (10, 10, 100, 100)%Z "dog" "tired" (6 # 10)%Q)
    = [CallImread "dog.jpg";
       CallRectangle (10, 10)%Z (100, 100)%Z (0, 255, 0)%Z 2;
       CallGetTextSize label;
       CallRectangle bg1 bg2 (0, 255, 0)%Z (-1);
       CallPutText label org]
    /\ @cv2_getTextSize _ Demo.opencv label FONT_HERSHEY_SIMPLEX (6 # 10) 2
       = ((tw, th), bl)
    /\ inset_by 5 (fst org, snd org - th)%Z (fst org + tw, snd org)%Z
         bg1 bg2
    /\ fst bg1 = 10%Z /\ snd bg2 = 10%Z
    /\ (snd bg1 < 0 <-> 10 < th + 10)%Z.
Proof.
  apply (@draw_detection_with_mood_layout _ Demo.float_ops Demo.opencv
           "dog.jpg" 10%Z 10%Z 100%Z 100%Z "dog" "tired" (6 # 10)%Q
           (Some ["dog.jpg"; "rectangle"; "rectangle";
                  "dog - tired (60.0%)"])).
  by_evaluation.
Defined.

Example draw_detection_with_mood_near_top :
  trace_of (@draw_detection_with_mood _ Demo.float_ops Demo.opencv
              "dog.jpg" (10, 10, 100, 100)%Z "dog" "tired" (6 # 10)%Q)
  = [CallImread "dog.jpg";
     CallRectangle (10, 10)%Z (100, 100)%Z (0, 255, 0)%Z 2;
     CallGetTextSize "dog - tired (60.0%)";
     CallRectangle (10, -13)%Z (229, 10)%Z (0, 255, 0)%Z (-1);
     CallPutText "dog - tired (60.0%)" (15, 5)%Z].
Proof. vm_compute. reflexivity. Qed.

(** ** The main script: every run *)

(** Where an event sits in a trace whose first part holds none like it. *)
Lemma app_eq_mid (p : event -> bool) (l1 l2 tr1 : list event) (ev : event)
    (tr2 : list event) :
  (l1 ++ l2)%list = (tr1 ++ ev :: tr2)%list ->
  Forall (fun e => p e = false) l1 ->
  p ev = true ->
  exists k, tr1 = (l1 ++ k)%list /\ l2 = (k ++ ev :: tr2)%list.
Proof.
  intros Ht Hall Hev. revert tr1 Ht.
  induction Hall as [|a l1 Ha _ IH]; intros tr1 Ht.
  - exists tr1. auto.
  - destruct tr1 as [|b tr1]; simpl in Ht.
    + injection Ht as -> _. congruence.
    + injection Ht as -> Ht. destruct (IH tr1 Ht) as (k & -> & ->).
      exists k. auto.
Qed.

Lemma stdout_rendering (tr : list event) :
  Forall (fun ev => is_rendering_call ev = true) tr -> stdout tr = [].
Proof.
  induction 1 as [|ev tr Hev _ IH]; [reflexivity|].
  destruct ev; try discriminate Hev; exact IH.
Qed.

Lemma print_not_in_quiet (tr : list event) (line : string) :
  stdout tr = [] -> Print line ∉ tr.
Proof.
  intros Hs Hin. induction tr as [|ev tr IH]; [by apply elem_of_nil in Hin|].
  apply elem_of_cons in Hin as [<-|Hin]; [discriminate Hs|].
  destruct ev; try discriminate Hs; auto.
Qed.

Section MainRuns.

Context {Image Inputs Frame : Type}.
Context `{!Detector, !Pillow Image, !Clip Image Inputs, !FloatOps,
          !OpenCV Frame}.

Lemma detect_and_crop_quiet path :
  Forall (fun e => is_classification_call e = false
                   /\ is_rendering_call e = false)
    (trace_of (detect_and_crop path))
  /\ stdout (trace_of (detect_and_crop path)) = [].
Proof.
  unfold detect_and_crop, call.
  destruct (yolo_model path) as [results|];
    [|split; [repeat constructor|reflexivity]].
  rewrite bind_Ok.
  destruct results as [|r rest]; [split; [repeat constructor|reflexivity]|].
  rewrite bind_lift_Ok with (a := r) by reflexivity.
  unfold trace_of at 1 3. cbn [fst app].
  destruct (scan_detections_trace path r
              (zip (xyxy (boxes r)) (cls (boxes r))))
    as [E|[E|(b & E)]]; rewrite E;
    (split; [repeat constructor|reflexivity]).
Qed.

Lemma detect_and_crop_shape path d :
  result_of (detect_and_crop path) = Ok d ->
  d = (None, None, None)
  \/ exists s img b, d = (Some s, Some img, Some b) /\ s ∈ pet_labels.
Proof.
  intros Hr. apply detect_and_crop_Ok_inv in Hr as (r & rest & _ & Hs).
  destruct d as [[l c] b].
  apply scan_detections_shape in Hs
    as [(-> & -> & ->)|(s & img & b' & -> & Hs & -> & ->)]; eauto 10.
Qed.

Lemma classify_mood_quiet (image : Image) :
  Forall (fun e => is_rendering_call e = false)
    (trace_of (classify_mood image))
  /\ stdout (trace_of (classify_mood image)) = [].
Proof.
  assert (trace_of (classify_mood image)
          `prefix_of` [CallClipProcessor candidate_phrases; CallClipModel])
    as [k Hk].
  { unfold classify_mood, call.
    destruct (clip_processor candidate_phrases image) as [inputs|];
      [|by eexists].
    rewrite bind_Ok.
    destruct (clip_model inputs) as [out|]; [|by eexists].
    rewrite bind_Ok.
    repeat (rewrite trace_of_bind; unfold lift at 1; cbn [trace_of fst app];
            match goal with
            | |- context [match result_of ?m with _ => _ end] =>
                destruct (result_of m)
            end; [|by eexists]).
    by eexists. }
  destruct (trace_of (classify_mood image)) as [|e1 [|e2 [|e3 tr]]];
    try discriminate Hk.
  - split; [constructor|reflexivity].
  - injection Hk as <- _. split; [repeat constructor|reflexivity].
  - injection Hk as <- <- _. split; [repeat constructor|reflexivity].
Qed.

Lemma draw_detection_with_mood_rendering
    path box_coords pet_type mood confidence :
  Forall (fun ev => is_rendering_call ev = true)
    (trace_of (draw_detection_with_mood path box_coords pet_type mood
                 confidence)).
Proof.
  destruct box_coords as [[[x1 y1] x2] y2].
  destruct (draw_detection_with_mood_prefix path x1 y1 x2 y2 pet_type mood
              confidence) as (label & tw & th & k & Hk).
  eapply proj1, Forall_app. rewrite <- Hk. repeat constructor.
Qed.

(** The found branch, after a classification that succeeded: the three
    lines, then calls to OpenCV only. *)
Lemma report_pet_classified pet_type cropped box_coords tr mood confidence :
  classify_mood cropped = (tr, Ok (mood, confidence)) ->
  exists rendering,
    trace_of (report_pet pet_type cropped box_coords)
    = (tr ++ [Print ("Pet detected: " +:+ pet_type);
              Print ("Mood: " +:+ mood +:+ " ("
                     +:+ format_1f (fmul confidence 100)
                     +:+ "% confidence)");
              Print ("Recommendation: "
                     +:+ get_recommendation pet_type mood)]
          ++ rendering)%list
    /\ Forall (fun ev => is_rendering_call ev = true) rendering.
Proof.
  intros Hc. unfold report_pet.
  rewrite trace_of_bind, Hc. cbn [trace_of result_of fst snd].
  unfold print. rewrite !bind_Ok. cbn [trace_of result_of fst snd app].
  eexists. split; [reflexivity|].
  rewrite trace_of_bind. apply Forall_app. split.
  - apply draw_detection_with_mood_rendering.
  - destruct (result_of (draw_detection_with_mood _ _ _ _ _)) as [img|];
      [|constructor].
    rewrite trace_of_bind. unfold imshow.
    rewrite trace_of_call, result_of_call.
    match goal with
    | |- context [match ?r with Ok _ => _ | Raise _ => _ end] => destruct r
    end; [|repeat constructor].
    unfold call.
    destruct (cv2_waitKey 0); repeat constructor.
Qed.

Lemma report_pet_unclassified pet_type cropped box_coords e :
  result_of (classify_mood cropped) = Raise e ->
  report_pet pet_type cropped box_coords
  = (trace_of (classify_mood cropped), Raise e).
Proof.
  unfold report_pet. destruct (classify_mood cropped) as [tr [a|e']].
  - discriminate.
  - intros [= ->]. reflexivity.
Qed.

End MainRuns.

Section MainClaims.

Context {Image Inputs Frame : Type}.
Context `{!Detector, !Pillow Image, !Clip Image Inputs, !FloatOps,
          !OpenCV Frame}.

(** The three ways a run of the main script can go after detection. *)
Lemma main_cases :
  (exists e,
     result_of (detect_and_crop image_path) = Raise e
     /\ main = (trace_of (detect_and_crop image_path), Raise e))
  \/ (result_of (detect_and_crop image_path) = Ok (None, None, None)
      /\ main = ((trace_of (detect_and_crop image_path)
                  ++ [Print no_pet_message])%list, Ok tt))
  \/ (exists pet_type cropped box_coords,
        result_of (detect_and_crop image_path)
        = Ok (Some pet_type, Some cropped, Some box_coords)
        /\ pet_type ∈ pet_labels
        /\ main
           = ((trace_of (detect_and_crop image_path)
               ++ trace_of (report_pet pet_type cropped box_coords))%list,
              result_of (report_pet pet_type cropped box_coords))).
Proof.
  destruct (detect_and_crop image_path) as [tr [d|e]] eqn:Ed.
  - destruct (detect_and_crop_shape image_path d) as [->|(s & img & b & -> & Hs)].
    + rewrite Ed. reflexivity.
    + right. left. split; [reflexivity|].
      unfold main. rewrite Ed, bind_Ok. reflexivity.
    + right. right. exists s, img, b. split; [reflexivity|].
      split; [exact Hs|]. apply main_found; assumption.
  - left. exists e. split; [reflexivity|].
    unfold main. rewrite Ed. reflexivity.
Qed.

(** X16.  Every run of the main script prints nothing at all, or the one
    line "No pet detected in the image.", or the three lines of a report:
    a pet type that is "dog" or "cat", one of the four moods with its
    confidence, and an entry of the recommendation table for this pair,
    never the fallback. *)
Theorem main_prints :
  stdout (trace_of main) = []
  \/ stdout (trace_of main) = [no_pet_message]
  \/ exists pet_type mood confidence rec,
       pet_type ∈ pet_labels /\ mood ∈ moods
       /\ rules !! (pet_type, mood) = Some rec
       /\ stdout (trace_of main)
          = ["Pet detected: " +:+ pet_type;
             "Mood: " +:+ mood +:+ " (" +:+ format_1f (fmul confidence 100)
             +:+ "% confidence)";
             "Recommendation: " +:+ rec].
Proof.
  pose proof (detect_and_crop_quiet image_path) as [_ Hquiet].
  destruct main_cases
    as [(e & _ & ->)|[(_ & ->)|(pet & crop & box & _ & Hpet & ->)]].
  - left. exact Hquiet.
  - right. left. cbn [trace_of fst]. rewrite stdout_app.
    fold (trace_of (detect_and_crop image_path)). rewrite Hquiet.
    reflexivity.
  - cbn [trace_of fst]. rewrite stdout_app.
    fold (trace_of (detect_and_crop image_path)). rewrite Hquiet.
    fold (trace_of (report_pet pet crop box)). cbn [app].
    destruct (classify_mood crop) as [tr [[mood conf]|e]] eqn:Ec.
    + right. right.
      assert (result_of (classify_mood crop) = Ok (mood, conf)) as Hr
        by (rewrite Ec; reflexivity).
      apply classify_mood_Ok_inv in Hr
        as (inputs & out & row & rows & i & _ & _ & _ & _ & Hmood & _).
      destruct (rules_lookup_domain pet mood Hpet Hmood) as (rec & Hrec & _).
      exists pet, mood, conf, rec. repeat split; try assumption.
      pose proof (classify_mood_quiet crop) as [_ Hc]. rewrite Ec in Hc.
      rewrite (report_pet_stdout pet crop box tr mood conf Ec Hc).
      unfold get_recommendation. rewrite Hrec. reflexivity.
    + left. rewrite report_pet_unclassified with (e := e)
        by (rewrite Ec; reflexivity).
      cbn [trace_of fst]. apply classify_mood_quiet.
Qed.

(** X17.  The order of the calls in a run of the main script.  A call to
    the classifier comes after the whole of the detection, which returned
    a dog or a cat, and in such a run the no-pet line is never printed.  A
    call to OpenCV comes after the three lines of the report: they are
    what has been printed when the call is made, and all that the run
    prints. *)
Theorem main_call_order :
  (forall tr1 ev tr2,
     trace_of main = (tr1 ++ ev :: tr2)%list ->
     is_classification_call ev = true ->
     (exists pet_type cropped box_coords,
        result_of (detect_and_crop image_path)
        = Ok (Some pet_type, Some cropped, Some box_coords)
        /\ pet_type ∈ pet_labels)
     /\ trace_of (detect_and_crop image_path) `prefix_of` tr1
     /\ Print no_pet_message ∉ trace_of main)
  /\ (forall tr1 ev tr2,
        trace_of main = (tr1 ++ ev :: tr2)%list ->
        is_rendering_call ev = true ->
        exists pet_type mood confidence,
          pet_type ∈ pet_labels /\ mood ∈ moods
          /\ stdout tr1
             = ["Pet detected: " +:+ pet_type;
                "Mood: " +:+ mood +:+ " ("
                +:+ format_1f (fmul confidence 100) +:+ "% confidence)";
                "Recommendation: " +:+ get_recommendation pet_type mood]
          /\ stdout (trace_of main) = stdout tr1).
Proof.
  pose proof (detect_and_crop_quiet image_path) as [Hq Hquiet].
  assert (Forall (fun e => is_classification_call e = false)
            (trace_of (detect_and_crop image_path))) as Hqc.
  { eapply Forall_impl; [exact Hq|]. intros e [He _]. exact He. }
  assert (Forall (fun e => is_rendering_call e = false)
            (trace_of (detect_and_crop image_path))) as Hqr.
  { eapply Forall_impl; [exact Hq|]. intros e [_ He]. exact He. }
  destruct main_cases
    as [(e & _ & ->)|[(_ & ->)|(pet & crop & box & Hd & Hpet & ->)]];
    cbn [trace_of fst].
  - split; intros tr1 ev tr2 Ht Hev; exfalso;
      fold (trace_of (detect_and_crop image_path)) in Ht;
      rewrite Ht in Hq; apply Forall_app in Hq as [_ Hq];
      apply Forall_cons_1 in Hq as [[? ?] _]; congruence.
  - split; intros tr1 ev tr2 Ht Hev; exfalso;
      fold (trace_of (detect_and_crop image_path)) in Ht.
    + destruct (app_eq_mid is_classification_call _ _ _ _ _ Ht Hqc Hev)
        as (k & _ & Hk).
      destruct k as [|e' k]; [injection Hk as <- _; discriminate Hev|].
      destruct k; discriminate Hk.
    + destruct (app_eq_mid is_rendering_call _ _ _ _ _ Ht Hqr Hev)
        as (k & _ & Hk).
      destruct k as [|e' k]; [injection Hk as <- _; discriminate Hev|].
      destruct k; discriminate Hk.
  - fold (trace_of (detect_and_crop image_path)).
    fold (trace_of (report_pet pet crop box)).
    pose proof (classify_mood_quiet crop) as [Hcr Hc].
    destruct (classify_mood crop) as [trc [[mood conf]|e]] eqn:Ec;
      cbn [trace_of fst] in Hcr, Hc.
    + destruct (report_pet_classified pet crop box trc mood conf Ec)
        as (rendering & Hrep & Hrend).
      rewrite Hrep.
      assert (mood ∈ moods) as Hmood.
      { assert (result_of (classify_mood crop) = Ok (mood, conf)) as Hr
          by (rewrite Ec; reflexivity).
        apply classify_mood_Ok_inv in Hr
          as (inputs & out & row & rows & i & _ & _ & _ & _ & Hm & _).
        exact Hm. }
      split; intros tr1 ev tr2 Ht Hev.
      * destruct (app_eq_mid is_classification_call _ _ _ _ _ Ht Hqc Hev)
          as (k & -> & _).
        split; [eauto|]. split; [by eexists|].
        intros Hin.
        apply elem_of_app in Hin as [Hin|Hin];
          [exact (print_not_in_quiet _ _ Hquiet Hin)|].
        apply elem_of_app in Hin as [Hin|Hin];
          [exact (print_not_in_quiet _ _ Hc Hin)|].
        apply elem_of_app in Hin as [Hin|Hin].
        -- repeat (apply elem_of_cons in Hin as [Hin|Hin];
                   [discriminate Hin|]).
           by apply elem_of_nil in Hin.
        -- exact (print_not_in_quiet _ _ (stdout_rendering _ Hrend) Hin).
      * rewrite !app_assoc in Ht.
        assert (Forall (fun e => is_rendering_call e = false)
                  ((trace_of (detect_and_crop image_path) ++ trc)
                   ++ [Print ("Pet detected: " +:+ pet);
                       Print ("Mood: " +:+ mood +:+ " ("
                              +:+ format_1f (fmul conf 100)
                              +:+ "% confidence)");
                       Print ("Recommendation: "
                              +:+ get_recommendation pet mood)])%list)
          as Hno.
        { repeat (apply Forall_app; split); try assumption.
          repeat constructor. }
        destruct (app_eq_mid is_rendering_call _ _ _ _ _ Ht Hno Hev)
          as (k & -> & Hk).
        exists pet, mood, conf. split; [exact Hpet|]. split; [exact Hmood|].
        assert (stdout k = [] /\ stdout rendering = []) as [Hk1 Hk2].
        { split; [|exact (stdout_rendering _ Hrend)].
          rewrite Hk in Hrend. apply Forall_app in Hrend as [Hrend _].
          exact (stdout_rendering _ Hrend). }
        rewrite !stdout_app, Hquiet, Hc, Hk1, Hk2. split; reflexivity.
    + rewrite report_pet_unclassified with (e := e)
        by (rewrite Ec; reflexivity).
      rewrite Ec. cbn [trace_of fst].
      split; intros tr1 ev tr2 Ht Hev.
      * destruct (app_eq_mid is_classification_call _ _ _ _ _ Ht Hqc Hev)
          as (k & -> & _).
        split; [eauto|]. split; [by eexists|].
        intros Hin.
        apply elem_of_app in Hin as [Hin|Hin];
          [exact (print_not_in_quiet _ _ Hquiet Hin)
          |exact (print_not_in_quiet _ _ Hc Hin)].
      * exfalso.
        assert (Forall (fun e => is_rendering_call e = false)
                  (trace_of (detect_and_crop image_path) ++ trc)%list)
          as Hno by (apply Forall_app; split; assumption).
        rewrite Ht in Hno. apply Forall_app in Hno as [_ Hno].
        apply Forall_cons_1 in Hno as [Hno _]. congruence.
Qed.

(** X18.  When a pet was found and the classification raises, the main
    script ends with that exception, having printed nothing and made no
    call to OpenCV. *)
Theorem main_classification_failure tr pet_type cropped box_coords e :
  detect_and_crop image_path
  = (tr, Ok (Some pet_type, Some cropped, Some box_coords)) ->
  result_of (classify_mood cropped) = Raise e ->
  main = ((tr ++ trace_of (classify_mood cropped))%list, Raise e)
  /\ stdout (trace_of main) = []
  /\ Forall (fun ev => is_rendering_call ev = false) (trace_of main).
Proof.
  intros Hd Hc.
  assert (pet_type ∈ pet_labels) as Hpet.
  { destruct (detect_and_crop_shape image_path
                (Some pet_type, Some cropped, Some box_coords))
      as [[=]|(s & img & b & [= -> _ _] & Hs)]; [|exact Hs].
    rewrite Hd. reflexivity. }
  rewrite (main_found tr pet_type cropped box_coords Hd Hpet).
  rewrite (report_pet_unclassified pet_type cropped box_coords e Hc).
  cbn [trace_of result_of fst snd].
  pose proof (detect_and_crop_quiet image_path) as [Hq Hquiet].
  rewrite Hd in Hq, Hquiet. cbn [trace_of fst] in Hq, Hquiet.
  pose proof (classify_mood_quiet cropped) as [Hcr Hcq].
  split; [reflexivity|]. split.
  - rewrite stdout_app, Hquiet, Hcq. reflexivity.
  - apply Forall_app. split; [|exact Hcr].
    eapply Forall_impl; [exact Hq|]. intros ev [_ Hev]. exact Hev.
Qed.

End MainClaims.

Section MainRendering.

Context {Image Inputs Frame : Type}.
Context `{!Detector, !Pillow Image, !Clip Image Inputs, !FloatOps,
          !OpenCV Frame}.

Lemma bind_eq_Ok {A B} (m : M A) (k : A -> M B) (tr : list event) (a : A) :
  m = (tr, Ok a) ->
  bind m k = ((tr ++ trace_of (k a))%list, result_of (k a)).
Proof. intros ->. apply bind_Ok. Qed.

Lemma rectangle_Some (f f' : Frame) pt1 pt2 c thickness :
  cv2_rectangle f pt1 pt2 c thickness = Ok f' ->
  rectangle (Some f) pt1 pt2 c thickness
  = ([CallRectangle pt1 pt2 c thickness], Ok (Some f')).
Proof. intros E. unfold rectangle. rewrite E. reflexivity. Qed.

Lemma putText_Some (f f' : Frame) text org font font_scale c thickness :
  cv2_putText f text org font font_scale c thickness = Ok f' ->
  putText (Some f) text org font font_scale c thickness
  = ([CallPutText text org], Ok (Some f')).
Proof. intros E. unfold putText. rewrite E. reflexivity. Qed.

Lemma rectangle_None pt1 pt2 c thickness :
  cv2_rectangle_None pt1 pt2 c thickness = Ok tt ->
  rectangle None pt1 pt2 c thickness
  = ([CallRectangle pt1 pt2 c thickness], Ok None).
Proof. intros E. unfold rectangle. rewrite E. reflexivity. Qed.

Lemma putText_None text org font font_scale c thickness :
  cv2_putText_None text org font font_scale c thickness = Ok tt ->
  putText None text org font font_scale c thickness
  = ([CallPutText text org], Ok None).
Proof. intros E. unfold putText. rewrite E. reflexivity. Qed.

(** Drawing on the [None] of an unreadable file, when OpenCV lets it
    pass: the five calls are made and [None] is returned. *)
Lemma draw_detection_with_mood_on_None
    path x1 y1 x2 y2 pet_type mood confidence label tw th bl :
  cv2_imread path = None ->
  (forall pt1 pt2 col t, cv2_rectangle_None pt1 pt2 col t = Ok tt) ->
  (forall text org font scale col t,
     cv2_putText_None text org font scale col t = Ok tt) ->
  label = pet_type +:+ " - " +:+ mood +:+ " ("
          +:+ format_1f (fmul confidence 100) +:+ "%)" ->
  cv2_getTextSize label FONT_HERSHEY_SIMPLEX (6 # 10) 2 = ((tw, th), bl) ->
  draw_detection_with_mood path (x1, y1, x2, y2) pet_type mood confidence
  = ([CallImread path;
      CallRectangle (x1, y1) (x2, y2) (0, 255, 0)%Z 2;
      CallGetTextSize label;
      CallRectangle (x1, y1 - th - 10)%Z (x1 + tw + 10, y1)%Z
        (0, 255, 0)%Z (-1);
      CallPutText label (x1 + 5, y1 - 5)%Z],
     Ok None).
Proof.
  intros Hread Hrect Hput -> Hs. unfold draw_detection_with_mood.
  rewrite Hread, Hs.
  rewrite bind_call_Ok with (a := None) by reflexivity.
  rewrite (bind_eq_Ok _ _ _ _ (rectangle_None _ _ _ _ (Hrect _ _ _ _))).
  rewrite bind_call_Ok with (a := ((tw, th), bl)) by reflexivity.
  cbn [trace_of result_of fst snd].
  rewrite (bind_eq_Ok _ _ _ _ (rectangle_None _ _ _ _ (Hrect _ _ _ _))).
  rewrite (bind_eq_Ok _ _ _ _
             (putText_None _ _ _ _ _ _ (Hput _ _ _ _ _ _))).
  reflexivity.
Qed.

(** X19.  When OpenCV cannot read the image that the detector and Pillow
    could read, [cv2.imread] returns [None] and the script goes on with
    it.  If the drawing functions let [None] pass and [cv2.imshow] raises
    on it, the report is printed in full, the five drawing calls are made,
    [cv2.imshow] is called and the script ends with its exception;
    [cv2.waitKey] and [cv2.destroyAllWindows] are not reached. *)
Theorem main_unreadable_for_opencv
    tr pet_type cropped x1 y1 x2 y2 trc mood confidence e :
  detect_and_crop image_path
  = (tr, Ok (Some pet_type, Some cropped, Some (x1, y1, x2, y2))) ->
  classify_mood cropped = (trc, Ok (mood, confidence)) ->
  cv2_imread image_path = None ->
  (forall pt1 pt2 col t, cv2_rectangle_None pt1 pt2 col t = Ok tt) ->
  (forall text org font scale col t,
     cv2_putText_None text org font scale col t = Ok tt) ->
  cv2_imshow_None "Pet Mood Detection" = Raise e ->
  exists label tw th bl,
    label = pet_type +:+ " - " +:+ mood +:+ " ("
            +:+ format_1f (fmul confidence 100) +:+ "%)"
    /\ cv2_getTextSize label FONT_HERSHEY_SIMPLEX (6 # 10) 2
       = ((tw, th), bl)
    /\ main
       = ((tr ++ trc
           ++ [Print ("Pet detected: " +:+ pet_type);
               Print ("Mood: " +:+ mood +:+ " ("
                      +:+ format_1f (fmul confidence 100)
                      +:+ "% confidence)");
               Print ("Recommendation: "
                      +:+ get_recommendation pet_type mood);
               CallImread image_path;
               CallRectangle (x1, y1) (x2, y2) (0, 255, 0)%Z 2;
               CallGetTextSize label;
               CallRectangle (x1, y1 - th - 10)%Z (x1 + tw + 10, y1)%Z
                 (0, 255, 0)%Z (-1);
               CallPutText label (x1 + 5, y1 - 5)%Z;
               CallImshow "Pet Mood Detection"])%list,
          Raise e)
    /\ stdout (trace_of main)
       = ["Pet detected: " +:+ pet_type;
          "Mood: " +:+ mood +:+ " (" +:+ format_1f (fmul confidence 100)
          +:+ "% confidence)";
          "Recommendation: " +:+ get_recommendation pet_type mood].
Proof.
  intros Hd Hc Hread Hrect Hput Hshow.
  assert (pet_type ∈ pet_labels) as Hpet.
  { destruct (detect_and_crop_shape image_path
                (Some pet_type, Some cropped, Some (x1, y1, x2, y2)))
      as [[=]|(s & img & b & [= -> _ _] & Hs)]; [|exact Hs].
    rewrite Hd. reflexivity. }
  set (label := pet_type +:+ " - " +:+ mood +:+ " ("
                +:+ format_1f (fmul confidence 100) +:+ "%)").
  destruct (cv2_getTextSize label FONT_HERSHEY_SIMPLEX (6 # 10) 2)
    as [[tw th] bl] eqn:Es.
  exists label, tw, th, bl.
  split; [reflexivity|]. split; [exact Es|].
  pose proof (detect_and_crop_quiet image_path) as [_ Hquiet].
  rewrite Hd in Hquiet. cbn [trace_of fst] in Hquiet.
  pose proof (classify_mood_quiet cropped) as [_ Hcq].
  rewrite Hc in Hcq. cbn [trace_of fst] in Hcq.
  assert (main
          = ((tr ++ trc
              ++ [Print ("Pet detected: " +:+ pet_type);
                  Print ("Mood: " +:+ mood +:+ " ("
                         +:+ format_1f (fmul confidence 100)
                         +:+ "% confidence)");
                  Print ("Recommendation: "
                         +:+ get_recommendation pet_type mood);
                  CallImread image_path;
                  CallRectangle (x1, y1) (x2, y2) (0, 255, 0)%Z 2;
                  CallGetTextSize label;
                  CallRectangle (x1, y1 - th - 10)%Z (x1 + tw + 10, y1)%Z
                    (0, 255, 0)%Z (-1);
                  CallPutText label (x1 + 5, y1 - 5)%Z;
                  CallImshow "Pet Mood Detection"])%list,
             Raise e)) as Hmain.
  { rewrite (main_found tr pet_type cropped (x1, y1, x2, y2) Hd Hpet).
    unfold report_pet. rewrite Hc, bind_Ok. unfold print.
    rewrite !bind_Ok.
    rewrite (draw_detection_with_mood_on_None image_path x1 y1 x2 y2
               pet_type mood confidence label tw th bl Hread Hrect Hput
               eq_refl Es).
    rewrite bind_Ok. unfold imshow. rewrite Hshow. reflexivity. }
  split; [exact Hmain|].
  rewrite Hmain. cbn [trace_of fst].
  rewrite !stdout_app, Hquiet, Hcq. reflexivity.
Qed.

(** X20.  A complete run.  When the first pet is found, the model gives one
    logit per phrase and OpenCV reads the image and fails nowhere, the main
    script ends normally after sixteen steps in this order: detection, open
    and crop, the two calls of the classifier, the three printed lines, the
    five drawing calls, then [imshow], [waitKey(0)] and
    [destroyAllWindows].  The rectangle drawn is the box that was cropped,
    and the label drawn carries the mood and the confidence that were
    printed. *)
Theorem main_complete_run
    r rest pre bx1 by1 bx2 by2 c post pet_type img cropped inputs out row
    rows f0 :
  yolo_model image_path = Ok (r :: rest) ->
  detections r = (pre ++ ((bx1, by1, bx2, by2), c) :: post)%list ->
  Forall (not_pet r) pre ->
  label_of r ((bx1, by1, bx2, by2), c) = Some pet_type ->
  pet_type ∈ pet_labels ->
  Image_open image_path = Ok img ->
  Image_crop img (int bx1, int by1, int bx2, int by2) = Ok cropped ->
  clip_processor candidate_phrases cropped = Ok inputs ->
  clip_model inputs = Ok out ->
  logits_per_image out = row :: rows ->
  length row = length moods ->
  cv2_imread image_path = Some f0 ->
  (forall f pt1 pt2 col t, exists f', cv2_rectangle f pt1 pt2 col t = Ok f') ->
  (forall f label org font scale col t,
     exists f', cv2_putText f label org font scale col t = Ok f') ->
  (forall title f, cv2_imshow title f = Ok tt) ->
  (forall delay, exists key, cv2_waitKey delay = Ok key) ->
  cv2_destroyAllWindows = Ok tt ->
  exists mood confidence label tw th bl,
    result_of (classify_mood cropped) = Ok (mood, confidence)
    /\ label = pet_type +:+ " - " +:+ mood +:+ " ("
               +:+ format_1f (fmul confidence 100) +:+ "%)"
    /\ cv2_getTextSize label FONT_HERSHEY_SIMPLEX (6 # 10) 2
       = ((tw, th), bl)
    /\ main
       = ([CallDetector image_path;
           CallImageOpen image_path;
           CallCrop (int bx1, int by1, int bx2, int by2);
           CallClipProcessor candidate_phrases;
           CallClipModel;
           Print ("Pet detected: " +:+ pet_type);
           Print ("Mood: " +:+ mood +:+ " ("
                  +:+ format_1f (fmul confidence 100) +:+ "% confidence)");
           Print ("Recommendation: " +:+ get_recommendation pet_type mood);
           CallImread image_path;
           CallRectangle (int bx1, int by1) (int bx2, int by2)
             (0, 255, 0)%Z 2;
           CallGetTextSize label;
           CallRectangle (int bx1, int by1 - th - 10)%Z
             (int bx1 + tw + 10, int by1)%Z (0, 255, 0)%Z (-1);
           CallPutText label (int bx1 + 5, int by1 - 5)%Z;
           CallImshow "Pet Mood Detection";
           CallWaitKey 0;
           CallDestroyAllWindows],
          Ok tt).
Proof.
  intros Hy Hd Hpre Hl Hpet Ho Hcrop Hp Hm Hlog Hlen Hread Hrect Hput Hshow
    Hwait Hdestroy.
  destruct (classify_mood_run cropped inputs out row rows Hp Hm Hlog Hlen)
    as (i & mood & conf & Hrun & _).
  set (label := pet_type +:+ " - " +:+ mood +:+ " ("
                +:+ format_1f (fmul conf 100) +:+ "%)").
  destruct (cv2_getTextSize label FONT_HERSHEY_SIMPLEX (6 # 10) 2)
    as [[tw th] bl] eqn:Es.
  exists mood, conf, label, tw, th, bl.
  split; [rewrite Hrun; reflexivity|]. split; [reflexivity|].
  split; [exact Es|].
  destruct (Hrect f0 (int bx1, int by1) (int bx2, int by2) (0, 255, 0)%Z
              2%Z) as [f1 E1].
  destruct (Hrect f1 (int bx1, int by1 - th - 10)%Z
              (int bx1 + tw + 10, int by1)%Z (0, 255, 0)%Z (-1)%Z)
    as [f2 E2].
  destruct (Hput f2 label (int bx1 + 5, int by1 - 5)%Z FONT_HERSHEY_SIMPLEX
              (6 # 10)%Q (0, 0, 0)%Z 2%Z) as [f3 E3].
  destruct (Hwait 0%Z) as [key Ew].
  assert (draw_detection_with_mood image_path
            (int bx1, int by1, int bx2, int by2) pet_type mood conf
          = ([CallImread image_path;
              CallRectangle (int bx1, int by1) (int bx2, int by2)
                (0, 255, 0)%Z 2;
              CallGetTextSize label;
              CallRectangle (int bx1, int by1 - th - 10)%Z
                (int bx1 + tw + 10, int by1)%Z (0, 255, 0)%Z (-1);
              CallPutText label (int bx1 + 5, int by1 - 5)%Z],
             Ok (Some f3))) as Hdraw.
  { unfold draw_detection_with_mood. rewrite Hread.
    rewrite bind_call_Ok with (a := Some f0) by reflexivity.
    rewrite (bind_eq_Ok _ _ _ _ (rectangle_Some _ _ _ _ _ _ E1)).
    fold label.
    rewrite bind_call_Ok
      with (a := cv2_getTextSize label FONT_HERSHEY_SIMPLEX (6 # 10) 2)
      by reflexivity.
    rewrite Es. cbn [trace_of result_of fst snd].
    rewrite (bind_eq_Ok _ _ _ _ (rectangle_Some _ _ _ _ _ _ E2)).
    rewrite (bind_eq_Ok _ _ _ _ (putText_Some _ _ _ _ _ _ _ _ E3)).
    reflexivity. }
  rewrite (main_found
             [CallDetector image_path; CallImageOpen image_path;
              CallCrop (int bx1, int by1, int bx2, int by2)]
             pet_type cropped (int bx1, int by1, int bx2, int by2)).
  - unfold report_pet. rewrite Hrun, bind_Ok. unfold print.
    rewrite !bind_Ok. rewrite Hdraw, bind_Ok. unfold imshow.
    rewrite bind_call_Ok with (a := tt) by apply Hshow.
    rewrite bind_call_Ok with (a := key) by assumption.
    rewrite Hdestroy. reflexivity.
  - apply (detect_and_crop_first image_path r rest pre (bx1, by1, bx2, by2)
             c post pet_type img cropped); assumption.
  - exact Hpet.
Qed.

End MainRendering.

(** The run on [one_dog], cut at the call of the model and at the first
    call to OpenCV. *)
Lemma main_call_order_witness :
  ((exists pet_type cropped box_coords,
      result_of (@detect_and_crop _ (Demo.detector [Demo.one_dog])
                   Demo.pillow image_path)
      = Ok (Some pet_type, Some cropped, Some box_coords)
      /\ pet_type ∈ pet_labels)
   /\ trace_of (@detect_and_crop _ (Demo.detector [Demo.one_dog])
                  Demo.pillow image_path)
      `prefix_of` [CallDetector image_path; CallImageOpen image_path;
                   CallCrop (10, 10, 100, 100)%Z;
                   CallClipProcessor candidate_phrases]
   /\ Print no_pet_message
      ∉ trace_of (@main _ _ _ (Demo.detector [Demo.one_dog]) Demo.pillow
                    (Demo.clip [Demo.scores]) Demo.float_ops Demo.opencv))
  /\ (exists pet_type mood confidence,
        pet_type ∈ pet_labels /\ mood ∈ moods
        /\ stdout [CallDetector image_path; CallImageOpen image_path;
                   CallCrop (10, 10, 100, 100)%Z;
                   CallClipProcessor candidate_phrases; CallClipModel;
                   Print "Pet detected: dog";
                   Print "Mood: tired (60.0% confidence)";
                   Print "Recommendation: Let your dog rest and provide fresh water 💧"]
           = ["Pet detected: " +:+ pet_type;
              "Mood: " +:+ mood +:+ " ("
              +:+ format_1f (@fmul Demo.float_ops confidence 100)
              +:+ "% confidence)";
              "Recommendation: " +:+ get_recommendation pet_type mood]
        /\ stdout (trace_of
             (@main _ _ _ (Demo.detector [Demo.one_dog]) Demo.pillow
                (Demo.clip [Demo.scores]) Demo.float_ops Demo.opencv))
           = stdout [CallDetector image_path; CallImageOpen image_path;
                     CallCrop (10, 10, 100, 100)%Z;
                     CallClipProcessor candidate_phrases; CallClipModel;
                     Print "Pet detected: dog";
                     Print "Mood: tired (60.0% confidence)";
                     Print "Recommendation: Let your dog rest and provide fresh water 💧"]).
Proof.
  split.
  - apply (proj1 (@main_call_order _ _ _ (Demo.detector [Demo.one_dog])
                    Demo.pillow (Demo.clip [Demo.scores]) Demo.float_ops
                    Demo.opencv))
      with (ev := CallClipModel)
           (tr2 := [Print "Pet detected: dog";
                    Print "Mood: tired (60.0% confidence)";
                    Print "Recommendation: Let your dog rest and provide fresh water 💧";
                    CallImread image_path;
                    CallRectangle (10, 10)%Z (100, 100)%Z (0, 255, 0)%Z 2;
                    CallGetTextSize "dog - tired (60.0%)";
                    CallRectangle (10, -13)%Z (229, 10)%Z (0, 255, 0)%Z (-1);
                    CallPutText "dog - tired (60.0%)" (15, 5)%Z;
                    CallImshow "Pet Mood Detection"; CallWaitKey 0;
                    CallDestroyAllWindows]);
      by_evaluation.
  - apply (proj2 (@main_call_order _ _ _ (Demo.detector [Demo.one_dog])
                    Demo.pillow (Demo.clip [Demo.scores]) Demo.float_ops
                    Demo.opencv))
      with (ev := CallImread image_path)
           (tr2 := [CallRectangle (10, 10)%Z (100, 100)%Z (0, 255, 0)%Z 2;
                    CallGetTextSize "dog - tired (60.0%)";
                    CallRectangle (10, -13)%Z (229, 10)%Z (0, 255, 0)%Z (-1);
                    CallPutText "dog - tired (60.0%)" (15, 5)%Z;
                    CallImshow "Pet Mood Detection"; CallWaitKey 0;
                    CallDestroyAllWindows]);
      by_evaluation.
Defined.

(** The dog is found and the model raises. *)
Lemma main_classification_failure_witness :
  @main _ _ _ (Demo.detector [Demo.one_dog]) Demo.pillow Demo.clip_no_model
    Demo.float_ops Demo.opencv
  = (([CallDetector image_path; CallImageOpen image_path;
       CallCrop (10, 10, 100, 100)%Z]
      ++ trace_of (@classify_mood _ _ Demo.clip_no_model Demo.float_ops
                     Demo.dog_crop))%list,
     Raise (LibraryError "torch"))
  /\ stdout (trace_of
       (@main _ _ _ (Demo.detector [Demo.one_dog]) Demo.pillow
          Demo.clip_no_model Demo.float_ops Demo.opencv)) = []
  /\ Forall (fun ev => is_rendering_call ev = false)
       (trace_of
          (@main _ _ _ (Demo.detector [Demo.one_dog]) Demo.pillow
             Demo.clip_no_model Demo.float_ops Demo.opencv)).
Proof.
  apply (@main_classification_failure _ _ _ (Demo.detector [Demo.one_dog])
           Demo.pillow Demo.clip_no_model Demo.float_ops Demo.opencv
           [CallDetector image_path; CallImageOpen image_path;
            CallCrop (10, 10, 100, 100)%Z]
           "dog" Demo.dog_crop (10, 10, 100, 100)%Z (LibraryError "torch"));
    by_evaluation.
Defined.

(** OpenCV cannot read the file: the report, five drawing calls on [None],
    then [imshow], which raises. *)
Lemma main_unreadable_for_opencv_witness :
  @main _ _ _ (Demo.detector [Demo.one_dog]) Demo.pillow
    (Demo.clip [Demo.scores]) Demo.float_ops Demo.opencv_unreadable
  = ([CallDetector image_path; CallImageOpen image_path;
      CallCrop (10, 10, 100, 100)%Z;
      CallClipProcessor candidate_phrases; CallClipModel;
      Print "Pet detected: dog";
      Print "Mood: tired (60.0% confidence)";
      Print "Recommendation: Let your dog rest and provide fresh water 💧";
      CallImread image_path;
      CallRectangle (10, 10)%Z (100, 100)%Z (0, 255, 0)%Z 2;
      CallGetTextSize "dog - tired (60.0%)";
      CallRectangle (10, -13)%Z (229, 10)%Z (0, 255, 0)%Z (-1);
      CallPutText "dog - tired (60.0%)" (15, 5)%Z;
      CallImshow "Pet Mood Detection"],
     Raise (LibraryError "cv2")).
Proof.
  destruct (@main_unreadable_for_opencv _ _ _ (Demo.detector [Demo.one_dog])
              Demo.pillow (Demo.clip [Demo.scores]) Demo.float_ops
              Demo.opencv_unreadable
              [CallDetector image_path; CallImageOpen image_path;
               CallCrop (10, 10, 100, 100)%Z]
              "dog" Demo.dog_crop 10%Z 10%Z 100%Z 100%Z
              [CallClipProcessor candidate_phrases; CallClipModel]
              "tired" (3 # 5)%Q (LibraryError "cv2"))
    as (label & tw & th & bl & Hlabel & Hsize & Hmain & _).
  - by_evaluation.
  - by_evaluation.
  - reflexivity.
  - intros. reflexivity.
  - intros. reflexivity.
  - reflexivity.
  - rewrite Hmain. subst label.
    vm_compute in Hsize. injection Hsize as <- <- _.
    vm_compute. reflexivity.
Defined.

Lemma main_complete_run_witness :
  result_of (@main _ _ _ (Demo.detector [Demo.one_dog]) Demo.pillow
               (Demo.clip [Demo.scores]) Demo.float_ops Demo.opencv)
  = Ok tt
  /\ length (trace_of
       (@main _ _ _ (Demo.detector [Demo.one_dog]) Demo.pillow
          (Demo.clip [Demo.scores]) Demo.float_ops Demo.opencv)) = 16%nat.
Proof.
  destruct (@main_complete_run _ _ _ (Demo.detector [Demo.one_dog])
              Demo.pillow (Demo.clip [Demo.scores]) Demo.float_ops
              Demo.opencv Demo.one_dog [] []
              (10 # 1)%Q (10 # 1)%Q (100 # 1)%Q (100 # 1)%Q (16 # 1)%Q []
              "dog" (image_path, []) Demo.dog_crop
              (candidate_phrases, Demo.dog_crop)
              {| logits_per_image := [Demo.scores] |} Demo.scores []
              [image_path])
    as (mood & conf & label & tw & th & bl & _ & _ & _ & Hmain).
  - reflexivity.
  - reflexivity.
  - all_not_pets.
  - by_evaluation.
  - by_evaluation.
  - reflexivity.
  - reflexivity.
  - reflexivity.
  - reflexivity.
  - reflexivity.
  - reflexivity.
  - reflexivity.
  - intros. eexists. reflexivity.
  - intros. eexists. reflexivity.
  - intros. reflexivity.
  - intros. eexists. reflexivity.
  - reflexivity.
  - rewrite Hmain. split; reflexivity.
Defined.

(** ** Detection: no exception of its own *)

Section DetectionReturns.

Context {Image : Type} `{!Detector, !Pillow Image}.

Lemma scan_detections_returns path r dets img :
  Forall (fun d => is_Some (label_of r d)) dets ->
  Image_open path = Ok img ->
  (forall b, exists cropped, Image_crop img b = Ok cropped) ->
  exists d, result_of (scan_detections path r dets) = Ok d.
Proof.
  intros Hnamed Ho Hcrop.
  induction Hnamed as [|[box c] dets [l Hl] _ IH].
  - eexists. reflexivity.
  - rewrite scan_detections_cons. unfold dict_getitem.
    unfold label_of in Hl. simpl in Hl. rewrite Hl.
    rewrite bind_lift_Ok with (a := l) by reflexivity.
    case_bool_decide; [|exact IH].
    destruct (Hcrop (int_box box)) as [cropped Hc].
    rewrite bind_call_Ok with (a := img) by assumption.
    rewrite bind_call_Ok with (a := cropped) by assumption.
    eexists. reflexivity.
Qed.

(** X21.  [detect_and_crop] raises nothing of its own when the libraries
    behave: if the detector returns a result in which every class index
    has a name, and Pillow opens the image and crops any box, the function
    returns a triple. *)
Theorem detect_and_crop_returns path r rest img :
  yolo_model path = Ok (r :: rest) ->
  Forall (fun d => is_Some (label_of r d)) (detections r) ->
  Image_open path = Ok img ->
  (forall b, exists cropped, Image_crop img b = Ok cropped) ->
  exists d, result_of (detect_and_crop path) = Ok d.
Proof.
  intros Hy Hnamed Ho Hcrop.
  rewrite (detect_and_crop_scan path r rest Hy).
  apply (scan_detections_returns path r (detections r) img); assumption.
Qed.

End DetectionReturns.

Lemma detect_and_crop_returns_witness :
  exists d,
    result_of (@detect_and_crop _ (Demo.detector [Demo.car_cat_dog])
                 Demo.pillow "pets.jpg") = Ok d.
Proof.
  apply (@detect_and_crop_returns _ (Demo.detector [Demo.car_cat_dog])
           Demo.pillow "pets.jpg" Demo.car_cat_dog [] ("pets.jpg", [])).
  - reflexivity.
  - repeat (apply Forall_cons_2; [eexists; by_evaluation|]).
    apply Forall_nil_2.
  - reflexivity.
  - intros b. eexists. reflexivity.
Defined.
